(** * Air CO2 monitoring with the SCD30: the alert / publish control loop

    A shallow embedding of [src/main.cpp] (an ESP8266 Arduino sketch) and the
    properties of its control loop: bounded retry, the e-mail alert with
    hysteresis and cooldown, the telemetry payload and the buzzer.

    The sketch talks to library objects ([scd30], [client], [smtp], [lcd],
    [WiFi], [Serial]) whose code is not part of the repository.  They are
    modelled as an interface ([Hardware]) over an abstract world [W]: every
    call is a transition of the world and leaves an [event] in the trace of
    the computation, so that statements such as "the operation is invoked at
    most n times" or "nothing is published" are statements about traces. *)

From Stdlib Require Import ZArith List String Ascii Bool Lia Sorted.
From Stdlib Require Import DecimalString.
From Stdlib Require Import Floats.SpecFloat.
Import ListNotations.
Open Scope Z_scope.

(** ** Single-precision floats

    [float] values are IEEE 754 binary32 numbers.  [spec_float] is the
    Standard Library's specification type for them; the comparisons are the
    IEEE ones (any comparison with a NaN is false). *)
Module F32.

Definition prec : Z := 24.
Definition emax : Z := 128.

Definition float : Type := spec_float.

(** The well-formed binary32 values among [spec_float]. *)
Definition valid (x : float) : bool := valid_binary prec emax x.

(** Conversion of an [int] operand to [float] (round to nearest even;
    exact below 2^24). *)
Definition of_int (n : Z) : float := binary_normalize prec emax n 0 false.

Definition lt (x y : float) : bool := SFltb x y.       (* x <  y *)
Definition ge (x y : float) : bool := SFleb y x.       (* x >= y *)

Definition INT_MIN : Z := - 2 ^ 31.
Definition INT_MAX : Z := 2 ^ 31 - 1.

(** The integer part of [x] (rounding toward zero); no value for NaN and
    the infinities. *)
Definition trunc (x : float) : option Z :=
  match x with
  | S754_zero _ => Some 0
  | S754_finite s m e =>
      let mag := Z.shiftl (Zpos m) e in
      Some (if s then - mag else mag)
  | S754_infinity _ | S754_nan => None
  end.

(** [int(x)] where C++ defines it: the truncated value must fit an
    [int] (32 bits on the ESP8266). *)
Definition to_int (x : float) : option Z :=
  match trunc x with
  | Some z => if (INT_MIN <=? z) && (z <=? INT_MAX) then Some z else None
  | None => None
  end.

End F32.

(** ** Data *)

(** The three values one sensor measurement delivers
    ([float co2, temperature, humidity] in [loop]). *)
Record reading : Type := mkReading {
  co2 : F32.float;
  temperature : F32.float;
  humidity : F32.float
}.

(** Calls that only act on the outside world. *)
Inductive output : Type :=
| SerialPrintln (s : string)
| LcdClear
| LcdSetCursor (col row : Z)
| LcdPrint (s : string)
| LcdPrintInt (n : Z)
| LcdWrite (b : Z)
| LcdSetRGB (r g b : Z)
| DigitalWrite (pin : Z) (high : bool)
| Delay (ms : Z).

(** One interaction of the sketch with a library object; calls that return
    something record what they returned. *)
Inductive event : Type :=
| Out (o : output)
| MqttConnected (r : bool)                 (* client.connected() *)
| MqttConnect (r : bool)                   (* client.connect(id, user, password) *)
| MqttLoop                                 (* client.loop() *)
| MqttPublish (topic payload : string) (retained : bool) (r : bool)
| Scd30Read (r : option reading)           (* scd30.blockingReadMeasurementData *)
| Millis (t : Z)                           (* millis(), the value returned *)
| WifiStatus (st : Z)                      (* WiFi.status() *)
| SmtpConnect (r : bool)                   (* smtp.connect(&session) *)
| SendMail (body : string) (r : bool).     (* MailClient.sendMail(&smtp, &message) *)

Definition trace : Type := list event.

(** The library objects, as transitions of a world [W].
    - [hw_scd30_read] is [None] when [blockingReadMeasurementData] returns a
      non-zero error code, and the measurement it stored through its three
      reference arguments otherwise;
    - [hw_millis] is the time since boot in milliseconds, unbounded; what
      [millis()] returns is this count reduced to an [unsigned long];
    - the credentials and addresses of [secrets.h] belong to the world. *)
Class Hardware (W : Type) : Type := {
  hw_mqtt_connected : W -> bool * W;
  hw_mqtt_connect : W -> bool * W;
  hw_mqtt_loop : W -> W;
  hw_mqtt_publish : string -> string -> bool -> W -> bool * W;
  hw_scd30_read : W -> option reading * W;
  hw_millis : W -> Z * W;
  hw_wifi_status : W -> Z * W;
  hw_smtp_connect : W -> bool * W;
  hw_send_mail : string -> W -> bool * W;
  hw_output : output -> W -> W
}.

(** What the Arduino core and the compiler decide.
    - [String_float x d] is [String(x, d)], the decimal rendering of [x] with
      [d] fractional digits, and [String_int n] is [String(n)];
    - [cast_out_of_range x] is what [int(x)] yields on the target when the
      language leaves it undefined ([F32.to_int x = None]). *)
Class Platform : Type := {
  String_float : F32.float -> Z -> string;
  String_int : Z -> string;
  cast_out_of_range : F32.float -> Z
}.

(** ** Constants of the sketch *)

Definition CO2_ALERT_THRESHOLD : Z := 1000.
Definition EMAIL_COOLDOWN : Z := 60000.            (* 1 minute *)
Definition topic : string := "channels/3141928/publish".
Definition buzzer : Z := 14.
Definition HIGH : bool := true.
Definition LOW : bool := false.
Definition WL_CONNECTED : Z := 3.                  (* wl_status_t *)

(** [unsigned long] is 32 bits wide on the ESP8266. *)
Definition ULONG_MOD : Z := 2 ^ 32.
Definition to_ulong (n : Z) : Z := n mod ULONG_MOD.
Definition ulong_sub (a b : Z) : Z := (a - b) mod ULONG_MOD.

(** The default of the [maxRetries] argument in both prototypes. *)
Definition default_maxRetries : Z := 3.

Definition nl : string := String (ascii_of_nat 10) EmptyString.
Definition degree : string :=
  String (ascii_of_nat 194) (String (ascii_of_nat 176) EmptyString).

(** ** The sketch *)

Section Program.

Context {W : Type} `{Hardware W} `{Platform}.

(** The globals the sketch mutates, and the world around it. *)
Record state : Type := mkState {
  lastEmailSent : Z;            (* unsigned long lastEmailSent = 0; *)
  emailAlertSent : bool;        (* bool emailAlertSent = false; *)
  hw : W
}.

Definition with_hw (s : state) (w : W) : state :=
  mkState (lastEmailSent s) (emailAlertSent s) w.

(** *** A state monad that logs every interaction *)

Definition M (A : Type) : Type := state -> A * state * trace.

Definition ret {A : Type} (a : A) : M A := fun s => (a, s, []).

Definition bind {A B : Type} (m : M A) (k : A -> M B) : M B :=
  fun s =>
    let '(a, s1, t1) := m s in
    let '(b, s2, t2) := k a s1 in
    (b, s2, t1 ++ t2).

Notation "x <- c1 ;; c2" := (bind c1 (fun x => c2))
  (at level 61, c1 at next level, right associativity).
Notation "c1 ;; c2" := (bind c1 (fun _ => c2))
  (at level 61, right associativity).

(** A call that returns something. *)
Definition call {R : Type} (f : W -> R * W) (ev : R -> event) : M R :=
  fun s => let '(r, w) := f (hw s) in (r, with_hw s w, [ev r]).

(** A call made for its effect. *)
Definition emit (o : output) : M unit :=
  fun s => (tt, with_hw s (hw_output o (hw s)), [Out o]).

Definition get_emailAlertSent : M bool := fun s => (emailAlertSent s, s, []).
Definition get_lastEmailSent : M Z := fun s => (lastEmailSent s, s, []).
Definition set_emailAlertSent (b : bool) : M unit :=
  fun s => (tt, mkState (lastEmailSent s) b (hw s), []).
Definition set_lastEmailSent (t : Z) : M unit :=
  fun s => (tt, mkState t (emailAlertSent s) (hw s), []).

Definition client_connected : M bool := call hw_mqtt_connected MqttConnected.
Definition client_connect : M bool := call hw_mqtt_connect MqttConnect.
Definition client_loop : M unit :=
  fun s => (tt, with_hw s (hw_mqtt_loop (hw s)), [MqttLoop]).
Definition client_publish (tp payload : string) (retained : bool) : M bool :=
  call (hw_mqtt_publish tp payload retained) (MqttPublish tp payload retained).
Definition scd30_blockingReadMeasurementData : M (option reading) :=
  call hw_scd30_read Scd30Read.
Definition millis : M Z :=
  call (fun w => let '(t, w') := hw_millis w in (to_ulong t, w')) Millis.
Definition WiFi_status : M Z := call hw_wifi_status WifiStatus.
Definition smtp_connect : M bool := call hw_smtp_connect SmtpConnect.
Definition MailClient_sendMail (body : string) : M bool :=
  call (hw_send_mail body) (SendMail body).

Definition Serial_println (s : string) : M unit := emit (SerialPrintln s).
Definition lcd_clear : M unit := emit LcdClear.
Definition lcd_setCursor (col row : Z) : M unit := emit (LcdSetCursor col row).
Definition lcd_print (s : string) : M unit := emit (LcdPrint s).
Definition lcd_print_int (n : Z) : M unit := emit (LcdPrintInt n).
Definition lcd_write (b : Z) : M unit := emit (LcdWrite b).
Definition lcd_setRGB (r g b : Z) : M unit := emit (LcdSetRGB r g b).
Definition digitalWrite (pin : Z) (v : bool) : M unit := emit (DigitalWrite pin v).
Definition delay (ms : Z) : M unit := emit (Delay ms).

(** [int(x)] for a [float] x. *)
Definition int_of_float (x : F32.float) : Z :=
  match F32.to_int x with
  | Some z => z
  | None => cast_out_of_range x
  end.

(** *** Bounded retry (lines 168-186)

    [for (int i = 0; i < maxRetries; i++)]: the loop body runs once for
    each of the [maxRetries - i] values [i] still has to take, unless it
    returns first; the recursion is on that number. *)

Fixpoint readSensor_for (remaining : nat) : M (option reading) :=
  match remaining with
  | O => ret None                                       (* return false *)
  | S remaining' =>
      r <- scd30_blockingReadMeasurementData ;;
      match r with
      | Some rd => ret (Some rd)                        (* == 0: return true *)
      | None => delay 500 ;; readSensor_for remaining'
      end
  end.

(** [Some rd]: the function returned [true] and left [rd] in the caller's
    three variables; [None]: it returned [false]. *)
Definition readSensorWithRetry (maxRetries : Z) : M (option reading) :=
  readSensor_for (Z.to_nat maxRetries).

Fixpoint publish_for (tp payload : string) (remaining : nat) : M bool :=
  match remaining with
  | O => ret false
  | S remaining' =>
      ok <- client_publish tp payload true ;;
      if ok then ret true
      else delay 1000 ;; publish_for tp payload remaining'
  end.

Definition publishWithRetry (tp payload : string) (maxRetries : Z) : M bool :=
  publish_for tp payload (Z.to_nat maxRetries).

(** *** The e-mail alert (lines 197-282) *)

Definition emailBody (co2 temperature humidity : F32.float) : string :=
  ("ALERTE - Qualite de l'air degradee" ++ nl ++ nl ++
   "Le niveau de CO2 a depasse le seuil d'alerte." ++ nl ++ nl ++
   "Donnees actuelles:" ++ nl ++
   "- CO2: " ++ String_float co2 1 ++ " ppm" ++ nl ++
   "- Temperature: " ++ String_float temperature 1 ++ " " ++ degree ++ "C" ++ nl ++
   "- Humidite: " ++ String_float humidity 1 ++ " %" ++ nl ++ nl ++
   "Seuil d'alerte: " ++ String_int CO2_ALERT_THRESHOLD ++ " ppm" ++ nl ++ nl ++
   "Veuillez aerer la salle immediatement." ++ nl)%string.

(** The [ESP_Mail_Session] and [SMTP_Message] that [sendEmailAlert] fills in
    are local data; of the message only the body depends on the reading. *)
Definition sendEmailAlert (co2 temperature humidity : F32.float) : M unit :=
  st <- WiFi_status ;;
  if negb (st =? WL_CONNECTED) then
    Serial_println "WiFi not connected, cannot send email"          (* return *)
  else
    Serial_println "Preparing to send email alert..." ;;
    lcd_clear ;;
    lcd_setCursor 0 0 ;;
    lcd_print "Sending Alert..." ;;
    connected <- smtp_connect ;;
    if negb connected then
      Serial_println "Connection error" ;;
      lcd_clear ;;
      lcd_print "Email Error!"                                       (* return *)
    else
      sent <- MailClient_sendMail (emailBody co2 temperature humidity) ;;
      if negb sent then
        Serial_println "Error sending Email" ;;
        lcd_clear ;;
        lcd_print "Email Failed!"
      else
        Serial_println "Email sent successfully" ;;
        lcd_clear ;;
        lcd_print "Alert Sent!" ;;
        delay 2000 ;;
        lcd_clear.

(** [currentTime - lastEmailSent >= EMAIL_COOLDOWN], on [unsigned long]. *)
Definition cooldown_elapsed (currentTime last : Z) : bool :=
  EMAIL_COOLDOWN <=? ulong_sub currentTime last.

Definition checkCO2Alert (co2 temperature humidity : F32.float) : M unit :=
  if F32.ge co2 (F32.of_int CO2_ALERT_THRESHOLD) then
    currentTime <- millis ;;
    alerted <- get_emailAlertSent ;;
    last <- get_lastEmailSent ;;
    if negb alerted || cooldown_elapsed currentTime last then
      sendEmailAlert co2 temperature humidity ;;
      set_lastEmailSent currentTime ;;
      set_emailAlertSent true ;;
      lcd_setRGB 255 0 0 ;;
      delay 1000 ;;
      lcd_setRGB 255 255 255
    else ret tt
  else
    if F32.lt co2 (F32.of_int (CO2_ALERT_THRESHOLD - 100)) then
      set_emailAlertSent false
    else ret tt.

(** *** The main loop (lines 59-119) *)

(** [reconnectMQTT] loops until the client reports a connection, which may
    never happen.  A computation that may not return takes [fuel], here the
    number of times the condition of the [while] may be evaluated, and is
    [None] when that does not suffice. *)
Definition P (A : Type) : Type := state -> option (A * state * trace).

Definition retP {A : Type} (a : A) : P A := fun s => Some (a, s, []).

Definition lift {A : Type} (m : M A) : P A := fun s => Some (m s).

Definition bindP {A B : Type} (m : P A) (k : A -> P B) : P B :=
  fun s =>
    match m s with
    | None => None
    | Some (a, s1, t1) =>
        match k a s1 with
        | None => None
        | Some (b, s2, t2) => Some (b, s2, t1 ++ t2)
        end
    end.

(** One turn of the [while] of [reconnectMQTT]. *)
Definition reconnect_attempt : M unit :=
  lcd_clear ;;
  lcd_setCursor 0 0 ;;
  lcd_print "Connecting MQTT" ;;
  ok <- client_connect ;;
  if ok then
    Serial_println "connected!" ;;
    lcd_setCursor 0 1 ;;
    lcd_print "MQTT Connected" ;;
    delay 1000 ;;
    lcd_clear
  else
    lcd_setCursor 0 1 ;;
    lcd_print "MQTT Failed" ;;
    delay 5000.

Fixpoint reconnectMQTT (fuel : nat) : P unit :=
  match fuel with
  | O => fun _ => None
  | S fuel' =>
      bindP (lift client_connected) (fun c =>
        if negb c then bindP (lift reconnect_attempt) (fun _ => reconnectMQTT fuel')
        else retP tt)
  end.

(** Lines 61-63. *)
Definition loop_connect (fuel : nat) : P unit :=
  bindP (lift client_connected) (fun c =>
    if negb c then reconnectMQTT fuel else retP tt).

(** Lines 65-69: [client.loop()], then the reading. *)
Definition loop_acquire : M (option reading) :=
  client_loop ;;
  readSensorWithRetry default_maxRetries.

(** Lines 70-73: the body of [if (!readSensorWithRetry(...))]. *)
Definition loop_sensor_error : M unit :=
  lcd_clear ;;
  lcd_print "Sensor Error!" ;;
  delay 2000.                                                        (* return *)

Definition payload_of (rd : reading) : string :=
  ("field1=" ++ String_float (co2 rd) 2 ++
   "&field2=" ++ String_float (temperature rd) 2 ++
   "&field3=" ++ String_float (humidity rd) 2 ++
   "&status=MQTTPUBLISH")%string.

(** Lines 76-118: what [loop] does with a reading. *)
Definition loop_report (rd : reading) : M unit :=
  checkCO2Alert (co2 rd) (temperature rd) (humidity rd) ;;
  let payload := payload_of rd in
  Serial_println "Publishing payload:" ;;
  Serial_println payload ;;
  delay 2000 ;;
  lcd_clear ;;
  published <- publishWithRetry topic payload default_maxRetries ;;
  (if negb published then
     lcd_print "Publish Failed!" ;;
     delay 2000 ;;
     lcd_clear
   else ret tt) ;;
  lcd_setCursor 0 0 ;;
  lcd_print "CO2: " ;;
  lcd_print_int (int_of_float (co2 rd)) ;;
  lcd_print " ppm" ;;
  lcd_setCursor 0 1 ;;
  lcd_print "T: " ;;
  lcd_print_int (int_of_float (temperature rd)) ;;
  lcd_write 223 ;;                                                   (* 0xDF *)
  lcd_print "C" ;;
  lcd_setCursor 8 1 ;;
  lcd_print "H: " ;;
  lcd_print_int (int_of_float (humidity rd)) ;;
  lcd_write 37 ;;                                                    (* 0x25 *)
  (if int_of_float (co2 rd) >? 1000 then
     digitalWrite buzzer HIGH ;;
     delay 1000
   else ret tt) ;;
  digitalWrite buzzer LOW ;;
  delay 1000.

Definition loop_cycle : M unit :=
  r <- loop_acquire ;;
  match r with
  | None => loop_sensor_error
  | Some rd => loop_report rd
  end.

(** One call of [loop()]. *)
Definition loop (fuel : nat) : P unit :=
  bindP (loop_connect fuel) (fun _ => lift loop_cycle).

End Program.

Arguments state W : clear implicits.
Arguments M W A : clear implicits.
Arguments P W A : clear implicits.

(** ** Reading traces *)

(** The events of a trace that [f] selects, in order. *)
Fixpoint pick {A : Type} (f : event -> option A) (tr : trace) : list A :=
  match tr with
  | [] => []
  | e :: tr' =>
      match f e with
      | Some a => a :: pick f tr'
      | None => pick f tr'
      end
  end.

(** The sensor reads of a trace: [true] for a read that succeeded. *)
Definition sensor_calls : trace -> list bool :=
  pick (fun e => match e with
                 | Scd30Read (Some _) => Some true
                 | Scd30Read None => Some false
                 | _ => None
                 end).

(** The publish calls of a trace: topic, payload, retain flag. *)
Definition publish_calls : trace -> list (string * string * bool) :=
  pick (fun e => match e with
                 | MqttPublish tp pl rt _ => Some (tp, pl, rt)
                 | _ => None
                 end).

(** What each publish call of a trace returned. *)
Definition publish_results : trace -> list bool :=
  pick (fun e => match e with MqttPublish _ _ _ r => Some r | _ => None end).

(** The levels written to the buzzer pin. *)
Definition buzzer_writes : trace -> list bool :=
  pick (fun e => match e with
                 | Out (DigitalWrite pin v) => if pin =? buzzer then Some v else None
                 | _ => None
                 end).

(** Calls into the mail transport ([smtp.connect], [MailClient.sendMail]). *)
Definition mail_calls : trace -> list event :=
  pick (fun e => match e with
                 | SmtpConnect _ | SendMail _ _ => Some e
                 | _ => None
                 end).

(** Writes to the display. *)
Definition lcd_calls : trace -> list output :=
  pick (fun e => match e with
                 | Out (LcdClear as o) | Out (LcdSetCursor _ _ as o)
                 | Out (LcdPrint _ as o) | Out (LcdPrintInt _ as o)
                 | Out (LcdWrite _ as o) | Out (LcdSetRGB _ _ _ as o) => Some o
                 | _ => None
                 end).

(** The red flash that follows a notification (lines 206-208). *)
Definition flash : trace :=
  [Out (LcdSetRGB 255 0 0); Out (Delay 1000); Out (LcdSetRGB 255 255 255)].

(** The world after the flash. *)
Definition flashed {W : Type} `{Hardware W} (w : W) : W :=
  hw_output (LcdSetRGB 255 255 255)
    (hw_output (Delay 1000) (hw_output (LcdSetRGB 255 0 0) w)).

(** What [millis()] returns in state [s]. *)
Definition clock {W : Type} `{Hardware W} (s : state W) : Z :=
  to_ulong (fst (hw_millis (hw s))).

(** [sendEmailAlert] was called: it is the one caller of [WiFi.status()]
    in [loop], and calls it before anything else. *)
Definition fired (tr : trace) : bool :=
  existsb (fun e => match e with WifiStatus _ => true | _ => false end) tr.

(** A mail was handed to the transport and accepted. *)
Definition delivered (tr : trace) : bool :=
  existsb (fun e => match e with SendMail _ true => true | _ => false end) tr.

(** What [loop] shows when the sensor gave nothing (lines 70-72). *)
Definition sensor_error_report : trace :=
  [Out LcdClear; Out (LcdPrint "Sensor Error!"); Out (Delay 2000)].

(** What [loop] says before publishing (lines 84-88). *)
Definition publish_notice (payload : string) : trace :=
  [Out (SerialPrintln "Publishing payload:"); Out (SerialPrintln payload);
   Out (Delay 2000); Out LcdClear].

(** What [loop] shows when publishing failed (lines 91-93). *)
Definition publish_failed_report : trace :=
  [Out (LcdPrint "Publish Failed!"); Out (Delay 2000); Out LcdClear].

(** The two display lines of a reading (lines 96-110). *)
Definition summary `{Platform} (rd : reading) : trace :=
  [Out (LcdSetCursor 0 0); Out (LcdPrint "CO2: ");
   Out (LcdPrintInt (int_of_float (co2 rd))); Out (LcdPrint " ppm");
   Out (LcdSetCursor 0 1); Out (LcdPrint "T: ");
   Out (LcdPrintInt (int_of_float (temperature rd))); Out (LcdWrite 223);
   Out (LcdPrint "C");
   Out (LcdSetCursor 8 1); Out (LcdPrint "H: ");
   Out (LcdPrintInt (int_of_float (humidity rd))); Out (LcdWrite 37)].

(** The end of a cycle (lines 112-118): the buzzer sounds for a second when
    [on], and is switched off in any case. *)
Definition buzz (on : bool) : trace :=
  (if on then [Out (DigitalWrite buzzer HIGH); Out (Delay 1000)] else []) ++
  [Out (DigitalWrite buzzer LOW); Out (Delay 1000)].

(** Every character of [s] is ASCII. *)
Definition is_ascii (s : string) : bool :=
  forallb (fun c => (nat_of_ascii c <? 128)%nat) (list_ascii_of_string s).

(** The events of connecting and of reading the sensor: the MQTT link, the
    sensor, and the display, serial line and delays. *)
Definition quiet (e : event) : bool :=
  match e with
  | MqttConnected _ | MqttConnect _ | MqttLoop | Scd30Read _ => true
  | Out (DigitalWrite _ _) => false
  | Out _ => true
  | _ => false
  end.

(** The events of an alert evaluation: the clock, WiFi, the mail transport,
    and the display, serial line and delays. *)
Definition alerting (e : event) : bool :=
  match e with
  | Millis _ | WifiStatus _ | SmtpConnect _ | SendMail _ _ => true
  | Out (DigitalWrite _ _) => false
  | Out _ => true
  | _ => false
  end.

(** ** The alert state machine as the specification words it (section 4.2)

    [evaluate] is not taken from the sketch: it follows the transition table
    of the specification, to be compared with [checkCO2Alert]: states Disarmed and Armed,
    thresholds 1000 ppm, margin 100 ppm, cooldown 60 s, the elapsed time
    taken on the 32-bit millisecond clock.  It returns the next state and
    whether a notification is due. *)
Record AlertState : Type := mkAlert {
  armed : bool;
  lastNotifiedAt : Z
}.

Definition threshold : Z := 1000.
Definition hysteresisMargin : Z := 100.
Definition cooldownInterval : Z := 60000.

Definition evaluate (st : AlertState) (co2 : F32.float) (now : Z)
  : AlertState * bool :=
  if F32.ge co2 (F32.of_int threshold) then
    if armed st then
      if cooldownInterval <=? (now - lastNotifiedAt st) mod 2 ^ 32
      then (mkAlert true now, true)
      else (st, false)
    else (mkAlert true now, true)
  else
    if F32.lt co2 (F32.of_int (threshold - hysteresisMargin))
    then (mkAlert false (lastNotifiedAt st), false)
    else (st, false).

Definition alert_of {W : Type} (s : state W) : AlertState :=
  mkAlert (emailAlertSent s) (lastEmailSent s).

(** ** Sequences of alert evaluations

    [alert_run s es s']: starting in [s], [checkCO2Alert] is called once for
    each entry of [es].  An entry records the reading, the time since boot
    at the call and whether the call fired a notification.  Between two
    calls the rest of [loop] runs and time passes: the world the next call
    finds is arbitrary, the globals are those the previous call left. *)
Record evaluation : Type := mkEval {
  ev_reading : reading;
  ev_time : Z;
  ev_fired : bool
}.

Inductive alert_run {W : Type} `{Hardware W} `{Platform}
  : state W -> list evaluation -> state W -> Prop :=
| run_done : forall s, alert_run s [] s
| run_step : forall s rd s1 tr w es s',
    checkCO2Alert (co2 rd) (temperature rd) (humidity rd) s = (tt, s1, tr) ->
    alert_run (with_hw s1 w) es s' ->
    alert_run s (mkEval rd (fst (hw_millis (hw s))) (fired tr) :: es) s'.

(** [gap a b]: [b] is at least a cooldown later than [a]. *)
Definition gap (a b : Z) : Prop := EMAIL_COOLDOWN <= b - a.

(** The times at which the evaluations of a run fired a notification. *)
Definition notified_at (es : list evaluation) : list Z :=
  map ev_time (filter ev_fired es).

Definition hot (e : evaluation) : Prop :=
  F32.ge (co2 (ev_reading e)) (F32.of_int CO2_ALERT_THRESHOLD) = true.

(** ** A scripted world

    A concrete [Hardware] to run the sketch on: the answers of the library
    objects are read from scripts, and [delay] is what makes time pass. *)
Module Sim.

Record world : Type := mkWorld {
  uptime : Z;                            (* milliseconds since boot *)
  link : list bool;                      (* client.connected(); then true *)
  accepts : list bool;                   (* client.connect(); then true *)
  measurements : list (option reading);  (* the sensor; then errors *)
  broker : list bool;                    (* client.publish(); then false *)
  wifi : Z;                              (* WiFi.status() *)
  smtp_up : bool;                        (* smtp.connect() *)
  mail_ok : bool                         (* MailClient.sendMail() *)
}.

Definition next {A : Type} (dflt : A) (l : list A) : A * list A :=
  match l with
  | [] => (dflt, [])
  | a :: l' => (a, l')
  end.

Definition connected (w : world) : bool * world :=
  let '(a, l) := next true (link w) in
  (a, mkWorld (uptime w) l (accepts w) (measurements w) (broker w)
              (wifi w) (smtp_up w) (mail_ok w)).

Definition connect (w : world) : bool * world :=
  let '(a, l) := next true (accepts w) in
  (a, mkWorld (uptime w) (link w) l (measurements w) (broker w)
              (wifi w) (smtp_up w) (mail_ok w)).

Definition measure (w : world) : option reading * world :=
  let '(a, l) := next None (measurements w) in
  (a, mkWorld (uptime w) (link w) (accepts w) l (broker w)
              (wifi w) (smtp_up w) (mail_ok w)).

Definition publish (_ _ : string) (_ : bool) (w : world) : bool * world :=
  let '(a, l) := next false (broker w) in
  (a, mkWorld (uptime w) (link w) (accepts w) (measurements w) l
              (wifi w) (smtp_up w) (mail_ok w)).

Definition output_step (o : output) (w : world) : world :=
  match o with
  | Delay ms =>
      mkWorld (uptime w + ms) (link w) (accepts w) (measurements w) (broker w)
              (wifi w) (smtp_up w) (mail_ok w)
  | _ => w
  end.

#[global] Instance hardware : Hardware world := {
  hw_mqtt_connected := connected;
  hw_mqtt_connect := connect;
  hw_mqtt_loop := fun w => w;
  hw_mqtt_publish := publish;
  hw_scd30_read := measure;
  hw_millis := fun w => (uptime w, w);
  hw_wifi_status := fun w => (wifi w, w);
  hw_smtp_connect := fun w => (smtp_up w, w);
  hw_send_mail := fun _ w => (mail_ok w, w);
  hw_output := output_step
}.

Definition string_of_Z (z : Z) : string := NilZero.string_of_int (Z.to_int z).

(** The last [d] decimal digits of [n], with leading zeros. *)
Definition fraction_digits (d n : Z) : string :=
  match string_of_Z (10 ^ d + n mod 10 ^ d) with
  | String _ ds => ds
  | EmptyString => EmptyString
  end.

(** Decimal rendering with [d] fractional digits, rounding half up. *)
Definition render (x : F32.float) (d : Z) : string :=
  match x with
  | S754_nan => "nan"
  | S754_infinity s => if s then "-inf" else "inf"
  | S754_zero _ => ("0." ++ fraction_digits d 0)%string
  | S754_finite s m e =>
      let scaled := Z.shiftl (2 * Zpos m * 10 ^ d) e in
      let rounded := (scaled + 1) / 2 in
      ((if s then "-" else "") ++ string_of_Z (rounded / 10 ^ d) ++ "." ++
       fraction_digits d rounded)%string
  end.

(** Out of range the conversion saturates, and NaN gives 0. *)
Definition saturate (x : F32.float) : Z :=
  match x with
  | S754_infinity s => if s then F32.INT_MIN else F32.INT_MAX
  | S754_finite s _ _ => if s then F32.INT_MIN else F32.INT_MAX
  | _ => 0
  end.

#[global] Instance platform : Platform := {
  String_float := render;
  String_int := string_of_Z;
  cast_out_of_range := saturate
}.

(** [m * 2^e] as a [float]. *)
Definition flt (m e : Z) : F32.float := binary_normalize F32.prec F32.emax m e false.

Definition rd_fresh : reading := mkReading (flt 500 0) (flt 43 (-1)) (flt 40 0).
Definition rd_band : reading := mkReading (flt 950 0) (flt 43 (-1)) (flt 40 0).
Definition rd_low : reading := mkReading (flt 850 0) (flt 43 (-1)) (flt 40 0).
Definition rd_edge : reading := mkReading (flt 2001 (-1)) (flt 43 (-1)) (flt 40 0).
Definition rd_high : reading := mkReading (flt 1200 0) (flt 43 (-1)) (flt 40 0).

(** A world in which everything works, [t] ms after boot. *)
Definition healthy (t : Z) (ms : list (option reading)) : world :=
  mkWorld t [] [] ms [true] WL_CONNECTED true true.

(** No WiFi: the mail cannot be sent. *)
Definition offline (t : Z) : world :=
  mkWorld t [] [] [] [] 6 false false.

(** The sensor fails three times in a row. *)
Definition blind (t : Z) : world :=
  mkWorld t [] [] [None; None; None; Some rd_high] [true] WL_CONNECTED true true.

(** The globals at boot. *)
Definition boot (w : world) : state world := mkState 0 false w.

(** An alert is pending since [last]. *)
Definition pending (last : Z) (w : world) : state world := mkState last true w.

Definition evaluate_at (rd : reading) (s : state world) : unit * state world * trace :=
  checkCO2Alert (co2 rd) (temperature rd) (humidity rd) s.

(** Three evaluations above the threshold, at 0 s, 30 s and 90 s. *)
Definition steady : list evaluation :=
  [mkEval rd_high 0 true; mkEval rd_high 30000 false; mkEval rd_high 90000 true].

(** Above the threshold at 0 s, below 900 ppm at 4 s, above again at 8 s. *)
Definition swing : list evaluation :=
  [mkEval rd_high 0 true; mkEval rd_low 4000 false; mkEval rd_high 8000 true].

(** A last notification 1 s before the 32-bit clock wraps, and an
    evaluation 60.5 s after it. *)
Definition before_wrap : Z := 2 ^ 32 - 1000.
Definition after_wrap : Z := 2 ^ 32 + 59500.

End Sim.

(** ** Start-up (lines 37-57 and 123-146)

    [setup] and [connectWiFi] make calls that [loop] never makes: they
    initialise the library objects.  None of them returns anything the sketch
    uses; each is a transition of the world and an entry of the trace. *)
Inductive boot_call : Type :=
| SerialBegin (baud : Z)
| PinMode (pin mode : Z)
| LcdBegin (cols rows : Z)
| WifiBegin                                  (* WiFi.begin(WIFI_SSID, WIFI_PASS) *)
| WireBegin
| Scd30Begin (addr : Z)
| MqttSetServer (host : string) (port : Z)
| SmtpDebug (level : Z)
| SmtpCallback.                              (* smtp.callback(smtpCallback) *)

(** An entry of a start-up trace: a call [loop] also makes, or one of the
    above. *)
Inductive boot_event : Type :=
| Run (e : event)
| Boot (c : boot_call).

Class BootHardware (W : Type) : Type := {
  hw_boot : boot_call -> W -> W
}.

Definition mqttServer : string := "mqtt3.thingspeak.com".
Definition mqttPort : Z := 1883.
Definition SCD30_I2C_ADDR_61 : Z := 97.             (* 0x61 *)
Definition OUTPUT : Z := 1.

Section Startup.

Context {W : Type} `{Hardware W} `{BootHardware W}.

Notation "x <- c1 ;; c2" := (bind c1 (fun x => c2))
  (at level 61, c1 at next level, right associativity).
Notation "c1 ;; c2" := (bind c1 (fun _ => c2))
  (at level 61, right associativity).

(** The [while] of [connectWiFi] (lines 127-132), with [remaining] the
    number of values [attempts] may still take below 20.  [WiFi.status()] is
    the left operand of [&&]: it is called each time the condition is
    evaluated, also when [attempts] has reached 20. *)
Fixpoint connectWiFi_wait (remaining : nat) : M W unit :=
  st <- WiFi_status ;;
  if negb (st =? WL_CONNECTED) then
    match remaining with
    | O => ret tt                                          (* attempts == 20 *)
    | S remaining' =>
        delay 500 ;;
        lcd_setCursor 0 0 ;;
        lcd_print "Trying WIFI..." ;;
        connectWiFi_wait remaining'                        (* attempts++ *)
    end
  else ret tt.

(** Lines 134-145: what [connectWiFi] shows once it stops waiting. *)
Definition connectWiFi_report : M W unit :=
  lcd_clear ;;
  st <- WiFi_status ;;
  if st =? WL_CONNECTED then
    lcd_print "WiFi Connected!" ;;
    delay 1500 ;;
    lcd_clear ;;
    Serial_println "WiFi connected!"
  else
    lcd_print "WiFi Failed!" ;;
    delay 2000 ;;
    lcd_clear.

(** Start-up computations: the state monad of the loop over start-up
    traces. *)
Definition B (A : Type) : Type := state W -> A * state W * list boot_event.

Definition bindB {A C : Type} (m : B A) (k : A -> B C) : B C :=
  fun s =>
    let '(a, s1, t1) := m s in
    let '(c, s2, t2) := k a s1 in
    (c, s2, t1 ++ t2).

(** A computation of the loop, run at start-up. *)
Definition run {A : Type} (m : M W A) : B A :=
  fun s => let '(a, s1, t1) := m s in (a, s1, map Run t1).

Definition boot (c : boot_call) : B unit :=
  fun s => (tt, with_hw s (hw_boot c (hw s)), [Boot c]).

Definition connectWiFi : B unit :=
  bindB (boot WifiBegin) (fun _ =>
  bindB (run (connectWiFi_wait 20)) (fun _ =>
  run connectWiFi_report)).

Definition setup : B unit :=
  bindB (boot (SerialBegin 115200)) (fun _ =>
  bindB (boot (PinMode buzzer OUTPUT)) (fun _ =>
  bindB (boot (LcdBegin 16 2)) (fun _ =>
  bindB connectWiFi (fun _ =>
  bindB (boot WireBegin) (fun _ =>
  bindB (boot (Scd30Begin SCD30_I2C_ADDR_61)) (fun _ =>
  bindB (boot (MqttSetServer mqttServer mqttPort)) (fun _ =>
  bindB (boot (SmtpDebug 0)) (fun _ =>
  bindB (boot SmtpCallback) (fun _ =>
  run (lcd_setCursor 0 0 ;;
       lcd_print "MQTT setup done" ;;
       delay 2000 ;;
       lcd_clear)))))))))).

End Startup.

Arguments B W A : clear implicits.

(** The calls of a start-up trace that [loop] also makes. *)
Fixpoint run_events (tr : list boot_event) : trace :=
  match tr with
  | [] => []
  | Run e :: tr' => e :: run_events tr'
  | Boot _ :: tr' => run_events tr'
  end.

(** ** More ways to read a trace *)

(** The time a trace spends in [delay], in milliseconds. *)
Definition delay_total (tr : trace) : Z :=
  fold_right Z.add 0
    (pick (fun e => match e with Out (Delay ms) => Some ms | _ => None end) tr).

(** What each [WiFi.status()] of a trace returned. *)
Definition wifi_polls : trace -> list Z :=
  pick (fun e => match e with WifiStatus st => Some st | _ => None end).

(** What each [client.connected()] of a trace returned. *)
Definition link_checks : trace -> list bool :=
  pick (fun e => match e with MqttConnected r => Some r | _ => None end).

(** What each [client.connect()] of a trace returned. *)
Definition connect_calls : trace -> list bool :=
  pick (fun e => match e with MqttConnect r => Some r | _ => None end).

(** The bodies handed to [MailClient.sendMail]. *)
Definition mails : trace -> list string :=
  pick (fun e => match e with SendMail body _ => Some body | _ => None end).

(** [k] failed attempts, each followed by a wait of [ms]. *)
Definition failed_attempts (failure : event) (ms : Z) (k : nat) : trace :=
  List.concat (repeat [failure; Out (Delay ms)] k).

(** The turns of the [while] of [connectWiFi], one for each status in
    [sts]. *)
Definition wifi_waits (sts : list Z) : trace :=
  flat_map (fun st => [WifiStatus st; Out (Delay 500); Out (LcdSetCursor 0 0);
                       Out (LcdPrint "Trying WIFI...")]) sts.

(** What [connectWiFi] shows in the end (lines 136-145). *)
Definition wifi_report (connected : bool) : trace :=
  if connected
  then [Out (LcdPrint "WiFi Connected!"); Out (Delay 1500); Out LcdClear;
        Out (SerialPrintln "WiFi connected!")]
  else [Out (LcdPrint "WiFi Failed!"); Out (Delay 2000); Out LcdClear].

(** The initialisation calls of a start-up trace. *)
Fixpoint boot_calls (tr : list boot_event) : list boot_call :=
  match tr with
  | [] => []
  | Run _ :: tr' => boot_calls tr'
  | Boot c :: tr' => c :: boot_calls tr'
  end.

(** ** Sequences of cycles

    [loop_run s es s']: starting in [s], [loop] is called again and again and
    returns each time, ending in [s'].  [es] has one entry for each cycle
    that got a reading: the reading, the time since boot when the cycle
    called [checkCO2Alert], and whether a notification was fired.  A cycle
    whose sensor reads all failed adds no entry. *)
Inductive loop_run {W : Type} `{Hardware W} `{Platform}
  : state W -> list evaluation -> state W -> Prop :=
| cycles_done : forall s, loop_run s [] s
| cycle_blind : forall fuel s s1 tr1 s2 tr2 s3 tr3 es s',
    loop_connect fuel s = Some (tt, s1, tr1) ->
    loop_acquire s1 = (None, s2, tr2) ->
    loop_sensor_error s2 = (tt, s3, tr3) ->
    loop_run s3 es s' ->
    loop_run s es s'
| cycle_read : forall fuel s s1 tr1 rd s2 tr2 s3 tr3 es s',
    loop_connect fuel s = Some (tt, s1, tr1) ->
    loop_acquire s1 = (Some rd, s2, tr2) ->
    loop_report rd s2 = (tt, s3, tr3) ->
    loop_run s3 es s' ->
    loop_run s (mkEval rd (fst (hw_millis (hw s2))) (fired tr3) :: es) s'.

(** ** More worlds *)
Module Bench.

(** A broker that is never reachable. *)
Definition down_connected (w : Sim.world) : bool * Sim.world := (false, w).

Definition down : Hardware Sim.world := {|
  hw_mqtt_connected := down_connected;
  hw_mqtt_connect := fun w => (false, w);
  hw_mqtt_loop := fun w => w;
  hw_mqtt_publish := Sim.publish;
  hw_scd30_read := Sim.measure;
  hw_millis := fun w => (Sim.uptime w, w);
  hw_wifi_status := fun w => (Sim.wifi w, w);
  hw_smtp_connect := fun w => (Sim.smtp_up w, w);
  hw_send_mail := fun _ w => (Sim.mail_ok w, w);
  hw_output := Sim.output_step
|}.

(** At start-up the scripted world only takes note of the calls. *)
#[global] Instance startup : BootHardware Sim.world := {
  hw_boot := fun _ w => w
}.

(** The broker refuses twice, then accepts. *)
Definition stubborn (t : Z) : Sim.world :=
  Sim.mkWorld t [false; false; false; true] [false; false; true] []
              [true] WL_CONNECTED true true.

(** Publishing fails every time. *)
Definition deaf (t : Z) (ms : list (option reading)) : Sim.world :=
  Sim.mkWorld t [] [] ms [] WL_CONNECTED true true.

(** WiFi is up, the mail server is not. *)
Definition no_smtp (t : Z) : Sim.world :=
  Sim.mkWorld t [] [] [] [] WL_CONNECTED false false.

End Bench.

(** * Properties *)

(** ** Comparisons of floats *)

Lemma compare_cont_Eq (p q : positive) :
  PosDef.Pos.compare_cont Eq p q = (p ?= q)%positive.
Proof. reflexivity. Qed.

Lemma SFcompare_antisym (x y : spec_float) :
  SFcompare y x = option_map CompOpp (SFcompare x y).
Proof.
  destruct x as [sx|sx| |sx mx ex], y as [sy|sy| |sy my ey]; simpl;
    try reflexivity;
    try (destruct sx; reflexivity);
    try (destruct sy; reflexivity);
    try (destruct sx, sy; reflexivity).
  rewrite (Z.compare_antisym ex ey).
  rewrite (compare_cont_Eq my mx), (compare_cont_Eq mx my).
  rewrite (Pos.compare_antisym mx my).
  destruct sx, sy; simpl; try reflexivity;
    destruct (ex ?= ey); simpl; try reflexivity;
    destruct (mx ?= my)%positive; reflexivity.
Qed.

Lemma lt_not_ge (x y : F32.float) : F32.lt x y = true -> F32.ge x y = false.
Proof.
  unfold F32.lt, F32.ge, SFltb, SFleb.
  rewrite (SFcompare_antisym x y).
  destruct (SFcompare x y) as [[ | | ]|]; simpl; congruence.
Qed.

Lemma ge_not_lt (x y : F32.float) : F32.ge x y = true -> F32.lt x y = false.
Proof.
  intros Hge. destruct (F32.lt x y) eqn:Hlt; [|reflexivity].
  apply lt_not_ge in Hlt. congruence.
Qed.

Lemma threshold_float :
  F32.of_int CO2_ALERT_THRESHOLD = S754_finite false 16384000 (-14).
Proof. vm_compute. reflexivity. Qed.

Lemma release_float :
  F32.of_int (CO2_ALERT_THRESHOLD - 100) = S754_finite false 14745600 (-14).
Proof. vm_compute. reflexivity. Qed.

(** A value below 900 is below 1000. *)
Lemma below_release_not_hot (x : F32.float) :
  F32.lt x (F32.of_int (CO2_ALERT_THRESHOLD - 100)) = true ->
  F32.ge x (F32.of_int CO2_ALERT_THRESHOLD) = false.
Proof.
  rewrite threshold_float, release_float.
  unfold F32.lt, F32.ge, SFltb, SFleb.
  destruct x as [s|s| |s m e]; cbn [SFcompare];
    try congruence; try (destruct s; congruence).
  destruct s; [reflexivity|].
  rewrite (Z.compare_antisym e (-14)).
  rewrite (compare_cont_Eq m 14745600), (compare_cont_Eq 16384000 m).
  destruct (e ?= -14) eqn:He; cbn [CompOpp]; try congruence.
  destruct (m ?= 14745600)%positive eqn:Hm; try congruence.
  intros _. apply Pos.compare_lt_iff in Hm.
  assert (Hlt : (16384000 ?= m)%positive = Gt)
    by (apply Pos.compare_gt_iff; eapply Pos.lt_trans; [exact Hm | reflexivity]).
  now rewrite Hlt.
Qed.

(** ** Conversion to [int] *)

Lemma digits2_pos_size (m : positive) : digits2_pos m = Pos.size m.
Proof. induction m as [m IH|m IH|]; cbn; now rewrite ?IH. Qed.

(** A valid finite value has at most 24 significant bits, and exactly 24
    unless its exponent is the smallest one. *)
Lemma valid_mantissa (s : bool) (m : positive) (e : Z) :
  F32.valid (S754_finite s m e) = true ->
  Zpos m < 2 ^ 24 /\ (-149 < e -> 2 ^ 23 <= Zpos m).
Proof.
  unfold F32.valid, valid_binary, bounded, canonical_mantissa, fexp, emin,
    F32.prec, F32.emax.
  rewrite digits2_pos_size. intros Hv.
  apply andb_prop in Hv. destruct Hv as [Hc _]. apply Z.eqb_eq in Hc.
  pose proof (Pos.size_gt m) as Hgt. pose proof (Pos.size_le m) as Hle.
  assert (Hsz : Z.pos (Pos.size m) <= 24 /\ (-149 < e -> Z.pos (Pos.size m) = 24)) by lia.
  destruct Hsz as [Hsz Hfull].
  apply Pos2Z.pos_lt_pos in Hgt. apply Pos2Z.pos_le_pos in Hle.
  rewrite Pos2Z.inj_pow in Hgt, Hle.
  change (Z.pos 2) with 2 in *.
  split.
  - eapply Z.lt_le_trans; [exact Hgt|]. apply Z.pow_le_mono_r; lia.
  - intros He. rewrite (Hfull He) in Hle.
    change (2 ^ 24) with (2 * 2 ^ 23) in Hle. lia.
Qed.

Lemma float_1001 : F32.of_int 1001 = S754_finite false 16400384 (-14).
Proof. vm_compute. reflexivity. Qed.

(** For a well-formed value, [int(x) > 1000] says [x >= 1001]. *)
Lemma truncated_above_1000 (x : F32.float) (z : Z) :
  F32.valid x = true ->
  F32.to_int x = Some z ->
  (1000 <? z) = F32.ge x (F32.of_int 1001).
Proof.
  intros Hv Hz. rewrite float_1001. unfold F32.ge, SFleb.
  unfold F32.to_int in Hz.
  destruct x as [s|s| |s m e]; cbn [F32.trunc SFcompare] in *;
    try discriminate Hz.
  - destruct (_ && _) in Hz; [|discriminate Hz]. injection Hz as <-.
    destruct s; reflexivity.
  - destruct (_ && _) in Hz; [|discriminate Hz]. injection Hz as <-.
    destruct (valid_mantissa _ _ _ Hv) as [Hhi Hlo].
    destruct s.
    + (* negative *)
      assert (0 <= Z.shiftl (Z.pos m) e) by (apply Z.shiftl_nonneg; lia).
      apply Z.ltb_ge. lia.
    + rewrite compare_cont_Eq.
      destruct (Z.compare_spec (-14) e) as [<-|He|He].
      * (* same binade as 1001 *)
        change (Z.shiftl (Z.pos m) (-14)) with (Z.shiftr (Z.pos m) 14).
        rewrite Z.shiftr_div_pow2 by lia. change (2 ^ 14) with 16384.
        destruct (Pos.compare_spec 16400384 m) as [<-|Hm|Hm].
        -- reflexivity.
        -- apply Z.ltb_lt. apply Pos2Z.pos_lt_pos in Hm.
           assert (1001 <= Z.pos m / 16384)
             by (apply Z.div_le_lower_bound; lia).
           lia.
        -- apply Z.ltb_ge. apply Pos2Z.pos_lt_pos in Hm.
           assert (Z.pos m / 16384 < 1001)
             by (apply Z.div_lt_upper_bound; lia).
           lia.
      * (* a higher binade *)
        apply Z.ltb_lt. specialize (Hlo ltac:(lia)).
        destruct (Z_le_gt_dec 0 e) as [Hpos|Hneg].
        -- rewrite Z.shiftl_mul_pow2 by lia.
           assert (1 <= 2 ^ e) by (apply Z.pow_pos_nonneg with (a := 2) in Hpos; lia).
           change (2 ^ 23) with 8388608 in Hlo. nia.
        -- replace e with (- (- e)) by lia. rewrite Z.shiftl_opp_r.
           rewrite Z.shiftr_div_pow2 by lia.
           assert (Hp : 0 < 2 ^ (- e) <= 2 ^ 13).
           { split; [apply Z.pow_pos_nonneg; lia|apply Z.pow_le_mono_r; lia]. }
           change (2 ^ 13) with 8192 in Hp. change (2 ^ 23) with 8388608 in Hlo.
           assert (1024 <= Z.pos m / 2 ^ (- e))
             by (apply Z.div_le_lower_bound; nia).
           lia.
      * (* a lower binade *)
        apply Z.ltb_ge.
        replace e with (- (- e)) by lia. rewrite Z.shiftl_opp_r.
        rewrite Z.shiftr_div_pow2 by lia.
        assert (Hp : 2 ^ 15 <= 2 ^ (- e)) by (apply Z.pow_le_mono_r; lia).
        change (2 ^ 15) with 32768 in Hp. change (2 ^ 24) with 16777216 in Hhi.
        assert (Z.pos m / 2 ^ (- e) < 512)
          by (apply Z.div_lt_upper_bound; nia).
        lia.
Qed.

(** ** Traces *)

Lemma pick_app {A : Type} (f : event -> option A) (t1 t2 : trace) :
  pick f (t1 ++ t2) = pick f t1 ++ pick f t2.
Proof.
  induction t1 as [|e t1 IH]; simpl; [reflexivity|].
  destruct (f e); simpl; now rewrite IH.
Qed.

Lemma fired_app (t1 t2 : trace) : fired (t1 ++ t2) = fired t1 || fired t2.
Proof. apply existsb_app. Qed.

Lemma delivered_app (t1 t2 : trace) :
  delivered (t1 ++ t2) = delivered t1 || delivered t2.
Proof. apply existsb_app. Qed.

(** ** Arithmetic on [unsigned long] *)

Lemma ULONG_MOD_value : ULONG_MOD = 4294967296.
Proof. reflexivity. Qed.

(** [millis()] differs from the time since boot by a multiple of 2^32. *)
Lemma to_ulong_anchor (T : Z) : (to_ulong T - T) mod ULONG_MOD = 0.
Proof.
  unfold to_ulong. rewrite Zminus_mod_idemp_l, Z.sub_diag.
  reflexivity.
Qed.

(** If the stored timestamp [L] stands for the time [Tp], the difference the
    sketch computes is the elapsed time modulo 2^32. *)
Lemma ulong_elapsed (T Tp L : Z) :
  (L - Tp) mod ULONG_MOD = 0 ->
  ulong_sub (to_ulong T) L = (T - Tp) mod ULONG_MOD.
Proof.
  intros HL. unfold ulong_sub, to_ulong.
  rewrite Zminus_mod_idemp_l.
  replace (T - L) with ((T - Tp) - (L - Tp)) by ring.
  rewrite Zminus_mod, HL, Z.sub_0_r.
  apply Z.mod_mod. rewrite ULONG_MOD_value. discriminate.
Qed.

(** Less than a cooldown of real time never looks like a full cooldown. *)
Lemma cooldown_elapsed_real (T Tp L : Z) :
  (L - Tp) mod ULONG_MOD = 0 ->
  Tp <= T ->
  cooldown_elapsed (to_ulong T) L = true ->
  EMAIL_COOLDOWN <= T - Tp.
Proof.
  intros HL Hle. unfold cooldown_elapsed.
  rewrite (ulong_elapsed T Tp L HL). intros Hc. apply Z.leb_le in Hc.
  destruct (Z_lt_le_dec (T - Tp) EMAIL_COOLDOWN) as [Hlt|]; [|assumption].
  rewrite Z.mod_small in Hc; [assumption|].
  rewrite ULONG_MOD_value. unfold EMAIL_COOLDOWN in Hlt. lia.
Qed.

(** Within 2^32 ms the modular difference is the elapsed time. *)
Lemma cooldown_elapsed_exact (T0 T1 : Z) :
  T0 <= T1 < T0 + ULONG_MOD ->
  cooldown_elapsed (to_ulong T1) (to_ulong T0) = (EMAIL_COOLDOWN <=? T1 - T0).
Proof.
  intros Hr. unfold cooldown_elapsed.
  rewrite (ulong_elapsed T1 T0 (to_ulong T0) (to_ulong_anchor T0)).
  rewrite Z.mod_small by lia. reflexivity.
Qed.

(** ** The alert *)

Section Alert.

Context {W : Type} `{Hardware W} `{Platform}.

Implicit Types (s : state W) (c t h : F32.float).

(** The four ways through [sendEmailAlert]. *)
Lemma sendEmailAlert_cases c t h s :
  exists w' tr,
    sendEmailAlert c t h s = (tt, with_hw s w', tr) /\
    let st := fst (hw_wifi_status (hw s)) in
    let prelude :=
      [WifiStatus st;
       Out (SerialPrintln "Preparing to send email alert...");
       Out LcdClear; Out (LcdSetCursor 0 0); Out (LcdPrint "Sending Alert...")] in
    let body := emailBody c t h in
    (st <> WL_CONNECTED /\
     tr = [WifiStatus st;
           Out (SerialPrintln "WiFi not connected, cannot send email")])
    \/ (st = WL_CONNECTED /\
        tr = prelude ++
             [SmtpConnect false; Out (SerialPrintln "Connection error");
              Out LcdClear; Out (LcdPrint "Email Error!")])
    \/ (st = WL_CONNECTED /\
        tr = prelude ++
             [SmtpConnect true; SendMail body false;
              Out (SerialPrintln "Error sending Email");
              Out LcdClear; Out (LcdPrint "Email Failed!")])
    \/ (st = WL_CONNECTED /\
        tr = prelude ++
             [SmtpConnect true; SendMail body true;
              Out (SerialPrintln "Email sent successfully");
              Out LcdClear; Out (LcdPrint "Alert Sent!");
              Out (Delay 2000); Out LcdClear]).
Proof.
  unfold sendEmailAlert, bind, WiFi_status, smtp_connect, MailClient_sendMail,
    Serial_println, lcd_clear, lcd_setCursor, lcd_print, delay, call, emit.
  destruct (hw_wifi_status (hw s)) as [st w1] eqn:Est; cbn [fst].
  destruct (st =? WL_CONNECTED) eqn:Ewifi; cbn [negb].
  - apply Z.eqb_eq in Ewifi. cbn [hw with_hw lastEmailSent emailAlertSent].
    match goal with
    | |- context [hw_smtp_connect ?w] =>
        destruct (hw_smtp_connect w) as [[|] w2]
    end; cbn [negb hw with_hw lastEmailSent emailAlertSent].
    + match goal with
      | |- context [hw_send_mail ?b ?w] =>
          destruct (hw_send_mail b w) as [[|] w3]
      end; cbn [negb hw with_hw lastEmailSent emailAlertSent app];
        eexists; eexists; (split; [reflexivity|]); auto 6.
    + cbn [app]. eexists; eexists; (split; [reflexivity|]); auto.
  - apply Z.eqb_neq in Ewifi. cbn [hw with_hw lastEmailSent emailAlertSent app].
    eexists; eexists; (split; [reflexivity|]); auto.
Qed.

Lemma sendEmailAlert_fired c t h s s' tr :
  sendEmailAlert c t h s = (tt, s', tr) -> fired tr = true.
Proof.
  destruct (sendEmailAlert_cases c t h s) as (w' & tr' & E & Hc).
  rewrite E. intros [= <- <-].
  destruct Hc as [[_ ->]|[[_ ->]|[[_ ->]|[_ ->]]]]; reflexivity.
Qed.

(** Reading at or above the threshold, and either no alert pending or the
    cooldown over: the mail is dispatched, the globals are updated, the
    display flashes. *)
Lemma checkCO2Alert_fire c t h s :
  F32.ge c (F32.of_int CO2_ALERT_THRESHOLD) = true ->
  negb (emailAlertSent s) || cooldown_elapsed (clock s) (lastEmailSent s) = true ->
  exists w' tr,
    sendEmailAlert c t h (with_hw s (snd (hw_millis (hw s)))) =
      (tt, with_hw s w', tr) /\
    checkCO2Alert c t h s =
      (tt, mkState (clock s) true (flashed w'), Millis (clock s) :: tr ++ flash).
Proof.
  intros Hge Hcond.
  destruct (sendEmailAlert_cases c t h (with_hw s (snd (hw_millis (hw s)))))
    as (w' & tr & E & _).
  exists w', tr. split; [exact E|].
  unfold checkCO2Alert. rewrite Hge.
  unfold clock in *.
  unfold bind at 1. unfold millis, call.
  destruct (hw_millis (hw s)) as [T w1]; cbn [fst snd] in *.
  unfold bind at 1. unfold get_emailAlertSent.
  unfold bind at 1. unfold get_lastEmailSent.
  cbn [emailAlertSent lastEmailSent with_hw]. rewrite Hcond.
  unfold bind at 1. rewrite E.
  reflexivity.
Qed.

(** Reading at or above the threshold while an alert is pending and the
    cooldown is not over: only the clock is read. *)
Lemma checkCO2Alert_suppress c t h s :
  F32.ge c (F32.of_int CO2_ALERT_THRESHOLD) = true ->
  negb (emailAlertSent s) || cooldown_elapsed (clock s) (lastEmailSent s) = false ->
  checkCO2Alert c t h s =
    (tt, with_hw s (snd (hw_millis (hw s))), [Millis (clock s)]).
Proof.
  intros Hge Hcond.
  unfold checkCO2Alert. rewrite Hge.
  unfold clock in *.
  unfold bind, millis, call, get_emailAlertSent, get_lastEmailSent, ret.
  destruct (hw_millis (hw s)) as [T w1]; cbn [fst snd] in *.
  cbn [emailAlertSent lastEmailSent with_hw]. rewrite Hcond.
  reflexivity.
Qed.

(** Reading below 900: the alert is cleared, nothing else happens. *)
Lemma checkCO2Alert_release c t h s :
  F32.lt c (F32.of_int (CO2_ALERT_THRESHOLD - 100)) = true ->
  checkCO2Alert c t h s = (tt, mkState (lastEmailSent s) false (hw s), []).
Proof.
  intros Hlt. unfold checkCO2Alert.
  rewrite (below_release_not_hot c Hlt), Hlt. reflexivity.
Qed.

(** Reading below the threshold but not below 900: nothing happens. *)
Lemma checkCO2Alert_hold c t h s :
  F32.ge c (F32.of_int CO2_ALERT_THRESHOLD) = false ->
  F32.lt c (F32.of_int (CO2_ALERT_THRESHOLD - 100)) = false ->
  checkCO2Alert c t h s = (tt, s, []).
Proof.
  intros Hge Hlt. unfold checkCO2Alert. rewrite Hge, Hlt. reflexivity.
Qed.

(** C1 (hysteresis).  Once an alert is pending ([emailAlertSent] is true),
    a reading with 900 <= co2 < 1000 changes nothing: the state stays as it
    is and no call is made, so no notification is fired.  And whatever the
    reading, the alert is cleared by the evaluation exactly when
    co2 < 900 = CO2_ALERT_THRESHOLD - 100. *)
Theorem hysteresis_band_holds c t h s :
  emailAlertSent s = true ->
  (F32.ge c (F32.of_int (CO2_ALERT_THRESHOLD - 100)) = true ->
   F32.lt c (F32.of_int CO2_ALERT_THRESHOLD) = true ->
   checkCO2Alert c t h s = (tt, s, []))
  /\ (emailAlertSent (snd (fst (checkCO2Alert c t h s))) = false <->
      F32.lt c (F32.of_int (CO2_ALERT_THRESHOLD - 100)) = true).
Proof.
  intros Harmed. split.
  - intros Hge Hlt.
    apply checkCO2Alert_hold; [now apply lt_not_ge | now apply ge_not_lt].
  - destruct (F32.lt c (F32.of_int (CO2_ALERT_THRESHOLD - 100))) eqn:Hrel.
    + rewrite (checkCO2Alert_release c t h s Hrel). cbn. tauto.
    + destruct (F32.ge c (F32.of_int CO2_ALERT_THRESHOLD)) eqn:Hhot.
      * destruct (negb (emailAlertSent s)
                  || cooldown_elapsed (clock s) (lastEmailSent s)) eqn:Hcond.
        -- destruct (checkCO2Alert_fire c t h s Hhot Hcond) as (w' & tr & _ & E).
           rewrite E. cbn. split; congruence.
        -- rewrite (checkCO2Alert_suppress c t h s Hhot Hcond). cbn.
           rewrite Harmed. split; congruence.
      * rewrite (checkCO2Alert_hold c t h s Hhot Hrel). cbn.
        rewrite Harmed. split; congruence.
Qed.

(** *** One evaluation at or above the threshold *)

Lemma hot_step c t h s s1 tr :
  F32.ge c (F32.of_int CO2_ALERT_THRESHOLD) = true ->
  checkCO2Alert c t h s = (tt, s1, tr) ->
  (fired tr = true /\
   emailAlertSent s1 = true /\ lastEmailSent s1 = clock s /\
   (emailAlertSent s = true ->
    cooldown_elapsed (clock s) (lastEmailSent s) = true))
  \/ (fired tr = false /\
      emailAlertSent s = true /\
      cooldown_elapsed (clock s) (lastEmailSent s) = false /\
      emailAlertSent s1 = true /\ lastEmailSent s1 = lastEmailSent s).
Proof.
  intros Hhot E.
  destruct (negb (emailAlertSent s)
            || cooldown_elapsed (clock s) (lastEmailSent s)) eqn:Hcond.
  - left.
    destruct (checkCO2Alert_fire c t h s Hhot Hcond) as (w' & trm & Em & E').
    rewrite E' in E. injection E as <- <-.
    cbn [fired existsb orb]. fold (fired (trm ++ flash)).
    rewrite fired_app, (sendEmailAlert_fired _ _ _ _ _ _ Em).
    repeat split.
    intros Ha. rewrite Ha in Hcond. exact Hcond.
  - right.
    rewrite (checkCO2Alert_suppress c t h s Hhot Hcond) in E.
    injection E as <- <-.
    apply orb_false_iff in Hcond. destruct Hcond as [Ha Hc].
    apply negb_false_iff in Ha.
    repeat split; assumption.
Qed.

(** *** Runs of evaluations *)

Lemma run_step_at s (rd : reading) (T : Z) (f : bool) (w : W) es s' :
  fst (hw_millis (hw s)) = T ->
  fired (snd (checkCO2Alert (co2 rd) (temperature rd) (humidity rd) s)) = f ->
  alert_run
    (with_hw (snd (fst (checkCO2Alert (co2 rd) (temperature rd) (humidity rd) s))) w)
    es s' ->
  alert_run s (mkEval rd T f :: es) s'.
Proof.
  intros <- <- Hrun.
  destruct (checkCO2Alert (co2 rd) (temperature rd) (humidity rd) s)
    as [[[] s1] tr] eqn:E.
  exact (run_step s rd s1 tr w es s' E Hrun).
Qed.

Lemma run_cooldown s es s' :
  alert_run s es s' ->
  Forall hot es ->
  StronglySorted Z.le (map ev_time es) ->
  forall Tp,
    (emailAlertSent s = true -> (lastEmailSent s - Tp) mod ULONG_MOD = 0) ->
    Forall (fun e => Tp <= ev_time e) es ->
    StronglySorted gap (notified_at es) /\
    (emailAlertSent s = true -> Forall (gap Tp) (notified_at es)).
Proof.
  induction 1 as [s | s rd s1 tr w es s' E Hrun IH];
    intros Hhot Hsorted Tp Hanchor Hafter.
  - split; [constructor | intros _; constructor].
  - inversion Hhot as [|e es0 Hrd Hhot']; subst.
    cbn [map ev_time] in Hsorted.
    inversion Hsorted as [|T ts Hss Hhead]; subst.
    inversion Hafter as [|e es0 HTp Hafter']; subst. cbn [ev_time] in HTp.
    set (T := fst (hw_millis (hw s))) in *.
    unfold hot in Hrd; cbn [ev_reading] in Hrd.
    unfold notified_at; cbn [filter ev_fired].
    destruct (hot_step _ _ _ _ _ _ Hrd E)
      as [(Hf & Ha1 & Hl1 & Hprev) | (Hf & Ha & Hc & Ha1 & Hl1)];
      rewrite Hf; cbn [map ev_time].
    + (* a notification at [T]: the rest of the run is anchored at [T] *)
      destruct (IH Hhot' Hss T) as [IHs IHg].
      * intros _. cbn [with_hw lastEmailSent]. rewrite Hl1.
        apply to_ulong_anchor.
      * rewrite Forall_map in Hhead. exact Hhead.
      * specialize (IHg Ha1). fold (notified_at es) in *.
        split.
        -- constructor; assumption.
        -- intros Ha. constructor.
           ++ unfold gap. apply (cooldown_elapsed_real T Tp (lastEmailSent s));
                auto.
           ++ revert IHg. apply Forall_impl. unfold gap. intros b Hb. lia.
    + (* suppressed: the anchor stays *)
      destruct (IH Hhot' Hss Tp) as [IHs IHg].
      * intros _. cbn [with_hw lastEmailSent]. rewrite Hl1. auto.
      * assumption.
      * split; [exact IHs | intros _; exact (IHg Ha1)].
Qed.

(** C2 (cooldown).  Take any run of evaluations whose readings are all at
    or above the threshold, made at non-decreasing times since boot, from
    any starting state.  Any two notifications of the run are at least
    EMAIL_COOLDOWN = 60000 ms apart; the first one is bound by nothing in
    the run.  And while an alert is pending, such an evaluation fires
    exactly when the elapsed time the sketch computes,
    [currentTime - lastEmailSent], is at least EMAIL_COOLDOWN. *)
Theorem cooldown_between_notifications s es s' :
  alert_run s es s' ->
  Forall hot es ->
  StronglySorted Z.le (map ev_time es) ->
  StronglySorted gap (notified_at es)
  /\ (forall c t h s0,
        emailAlertSent s0 = true ->
        F32.ge c (F32.of_int CO2_ALERT_THRESHOLD) = true ->
        fired (snd (checkCO2Alert c t h s0)) =
          cooldown_elapsed (clock s0) (lastEmailSent s0)).
Proof.
  intros Hrun Hhot Hsorted. split.
  - destruct es as [|e es]; [constructor|].
    set (T := ev_time e).
    set (Tp := T - (T - lastEmailSent s) mod ULONG_MOD).
    assert (HN : 0 < ULONG_MOD) by (rewrite ULONG_MOD_value; reflexivity).
    assert (HTp : Tp <= T).
    { pose proof (Z.mod_pos_bound (T - lastEmailSent s) ULONG_MOD HN).
      unfold Tp. lia. }
    apply (run_cooldown s (e :: es) s' Hrun Hhot Hsorted Tp).
    + intros _. unfold Tp.
      replace (lastEmailSent s - (T - (T - lastEmailSent s) mod ULONG_MOD))
        with ((lastEmailSent s - T) + (T - lastEmailSent s) mod ULONG_MOD)
        by ring.
      rewrite Zplus_mod_idemp_r.
      replace (lastEmailSent s - T + (T - lastEmailSent s)) with 0 by ring.
      reflexivity.
    + cbn [map] in Hsorted.
      inversion Hsorted as [|T0 ts Hss Hhead]; subst.
      constructor; [exact HTp|].
      rewrite Forall_map in Hhead. revert Hhead. apply Forall_impl.
      intros e' He'. fold T in He'. lia.
  - intros c t h s0 Ha Hge.
    destruct (checkCO2Alert c t h s0) as [[[] s1] tr] eqn:E. cbn [snd].
    destruct (hot_step _ _ _ _ _ _ Hge E)
      as [(Hf & _ & _ & Hprev) | (Hf & _ & Hc & _)].
    + now rewrite Hf, (Hprev Ha).
    + now rewrite Hf, Hc.
Qed.

(** C10 (clock overflow).  [currentTime - lastEmailSent] is a subtraction
    modulo 2^32.  If the last notification was stamped at time [T0] since
    boot and the evaluation happens at [T1], less than 2^32 ms later, the
    test against the cooldown gives what the real elapsed time [T1 - T0]
    gives, even if the 32-bit clock has wrapped in between; and that alone
    decides whether a pending alert is notified again. *)
Theorem cooldown_survives_overflow c t h s (T0 : Z) :
  emailAlertSent s = true ->
  lastEmailSent s = to_ulong T0 ->
  T0 <= fst (hw_millis (hw s)) < T0 + 2 ^ 32 ->
  F32.ge c (F32.of_int CO2_ALERT_THRESHOLD) = true ->
  cooldown_elapsed (clock s) (lastEmailSent s) =
    (EMAIL_COOLDOWN <=? fst (hw_millis (hw s)) - T0)
  /\ fired (snd (checkCO2Alert c t h s)) =
      (EMAIL_COOLDOWN <=? fst (hw_millis (hw s)) - T0).
Proof.
  intros Ha Hlast Hrange Hge.
  assert (Hex : cooldown_elapsed (clock s) (lastEmailSent s) =
                (EMAIL_COOLDOWN <=? fst (hw_millis (hw s)) - T0)).
  { rewrite Hlast. unfold clock. apply cooldown_elapsed_exact. exact Hrange. }
  split; [exact Hex|].
  destruct (checkCO2Alert c t h s) as [[[] s1] tr] eqn:E. cbn [snd].
  destruct (hot_step _ _ _ _ _ _ Hge E)
    as [(Hf & _ & _ & Hprev) | (Hf & _ & Hc & _)].
  - now rewrite Hf, <- Hex, (Hprev Ha).
  - now rewrite Hf, <- Hex, Hc.
Qed.

(** C9 (the cooldown does not survive a release).  In a run of three
    evaluations where the first fires a notification, the second reads
    below 900 ppm and the third reads at or above 1000 ppm, the third fires
    too, whatever the times: when they are less than EMAIL_COOLDOWN apart
    the notifications of the run are closer together than the cooldown. *)
Theorem cooldown_lost_after_release s e1 e2 e3 s' :
  alert_run s [e1; e2; e3] s' ->
  ev_fired e1 = true ->
  F32.lt (co2 (ev_reading e2)) (F32.of_int (CO2_ALERT_THRESHOLD - 100)) = true ->
  hot e3 ->
  notified_at [e1; e2; e3] = [ev_time e1; ev_time e3]
  /\ (ev_time e3 - ev_time e1 < EMAIL_COOLDOWN ->
      ~ StronglySorted gap (notified_at [e1; e2; e3])).
Proof.
  intros Hrun Hf1 Hlow Hhot3.
  assert (Hn : notified_at [e1; e2; e3] = [ev_time e1; ev_time e3]).
  { inversion Hrun as [|s0 rd1 s1 tr1 w1 es1 s1' E1 Hrun1]; subst.
    inversion Hrun1 as [|s0 rd2 s2 tr2 w2 es2 s2' E2 Hrun2]; subst.
    inversion Hrun2 as [|s0 rd3 s3 tr3 w3 es3 s3' E3 Hrun3]; subst.
    cbn [ev_fired ev_reading] in *.
    unfold hot in Hhot3; cbn [ev_reading] in Hhot3.
    rewrite (checkCO2Alert_release _ _ _ _ Hlow) in E2.
    injection E2 as <- <-.
    destruct (hot_step _ _ _ _ _ _ Hhot3 E3)
      as [(Hf3 & _) | (_ & Ha & _)]; [|discriminate Ha].
    unfold notified_at. cbn [filter ev_fired map ev_time].
    rewrite Hf1, Hf3. reflexivity. }
  split; [exact Hn|].
  rewrite Hn. intros Hclose Hss.
  inversion Hss as [|a l _ Hhead]; subst.
  inversion Hhead as [|b l' Hgap _]; subst.
  unfold gap in Hgap. lia.
Qed.

(** Whether the mail left, read off the trace of [sendEmailAlert]: it did
    not exactly when WiFi was down, [smtp.connect] failed or [sendMail]
    failed. *)
Lemma sendEmailAlert_delivery c t h s s' tr :
  sendEmailAlert c t h s = (tt, s', tr) ->
  delivered tr = false <->
  ((exists st, st <> WL_CONNECTED /\ In (WifiStatus st) tr)
   \/ In (SmtpConnect false) tr
   \/ (exists body, In (SendMail body false) tr)).
Proof.
  destruct (sendEmailAlert_cases c t h s) as (w' & tr' & E & Hc).
  rewrite E. intros [= <- <-]. cbv zeta in Hc.
  set (st := fst (hw_wifi_status (hw s))) in *.
  destruct Hc as [[Hst ->]|[[Hst ->]|[[Hst ->]|[Hst ->]]]]; cbn [app].
  - split; [intros _|reflexivity].
    left. exists st. split; [exact Hst | now left].
  - split; [intros _|reflexivity].
    right; left. cbn [In]. auto 10.
  - split; [intros _|reflexivity].
    right; right. exists (emailBody c t h). cbn [In]. auto 10.
  - split; [discriminate|].
    cbn [In].
    intros [(st' & Hne & Hin)|[Hin|(b & Hin)]];
      repeat (destruct Hin as [Hin|Hin]; try discriminate Hin);
      try contradiction.
    injection Hin as <-. contradiction.
Qed.

(** C8 (armed although nothing was sent).  When the alert condition holds
    (reading at or above the threshold, and no alert pending or the
    cooldown over), the evaluation calls [sendEmailAlert], sets
    [emailAlertSent] and stamps [lastEmailSent] with the current time, and
    it does so also when no mail left: WiFi down, [smtp.connect] failed or
    [sendMail] failed.  Until the cooldown is over, later evaluations at or
    above the threshold then only read the clock. *)
Theorem armed_even_if_dispatch_fails c t h s :
  F32.ge c (F32.of_int CO2_ALERT_THRESHOLD) = true ->
  emailAlertSent s = false \/
    cooldown_elapsed (clock s) (lastEmailSent s) = true ->
  forall s1 tr,
    checkCO2Alert c t h s = (tt, s1, tr) ->
    fired tr = true /\
    emailAlertSent s1 = true /\ lastEmailSent s1 = clock s /\
    (delivered tr = false <->
     ((exists st, st <> WL_CONNECTED /\ In (WifiStatus st) tr)
      \/ In (SmtpConnect false) tr
      \/ (exists body, In (SendMail body false) tr))) /\
    (forall c2 t2 h2 (w2 : W),
        F32.ge c2 (F32.of_int CO2_ALERT_THRESHOLD) = true ->
        cooldown_elapsed (to_ulong (fst (hw_millis w2))) (clock s) = false ->
        checkCO2Alert c2 t2 h2 (with_hw s1 w2) =
          (tt, with_hw s1 (snd (hw_millis w2)),
           [Millis (to_ulong (fst (hw_millis w2)))])).
Proof.
  intros Hge Hcond s1 tr E.
  assert (Hc : negb (emailAlertSent s)
               || cooldown_elapsed (clock s) (lastEmailSent s) = true).
  { destruct Hcond as [-> | ->]; [reflexivity | apply orb_true_r]. }
  destruct (checkCO2Alert_fire c t h s Hge Hc) as (w' & trm & Em & E').
  rewrite E' in E. injection E as <- <-.
  pose proof (sendEmailAlert_fired _ _ _ _ _ _ Em) as Hf.
  pose proof (sendEmailAlert_delivery _ _ _ _ _ _ Em) as Hd.
  split; [|split; [reflexivity|split; [reflexivity|split]]].
  - change (fired ([Millis (clock s)] ++ trm ++ flash) = true).
    now rewrite !fired_app, Hf.
  - change (Millis (clock s) :: trm ++ flash)
      with ([Millis (clock s)] ++ trm ++ flash).
    rewrite !delivered_app. cbn [delivered existsb flash orb].
    rewrite orb_false_r. fold (delivered trm). rewrite Hd.
    assert (Hin : forall e, (forall x, e <> Millis x) ->
                            (forall o, e <> Out o) ->
                In e ([Millis (clock s)] ++ trm ++ flash) <-> In e trm).
    { intros e Hm Ho. rewrite !in_app_iff. cbn [In flash]. split.
      - intros [[Hx|[]]|[Hx|[Hx|[Hx|[Hx|[]]]]]];
          solve [assumption | symmetry in Hx; now (apply Hm in Hx || apply Ho in Hx)].
      - auto. }
    split.
    + intros [(st & Hne & Hi)|[Hi|(b & Hi)]].
      * left. exists st. split; [exact Hne|]. apply Hin; [discriminate..|exact Hi].
      * right; left. apply Hin; [discriminate..|exact Hi].
      * right; right. exists b. apply Hin; [discriminate..|exact Hi].
    + intros [(st & Hne & Hi)|[Hi|(b & Hi)]].
      * left. exists st. split; [exact Hne|]. apply Hin in Hi; [exact Hi|discriminate..].
      * right; left. apply Hin in Hi; [exact Hi|discriminate..].
      * right; right. exists b. apply Hin in Hi; [exact Hi|discriminate..].
  - intros c2 t2 h2 w2 Hge2 Hcool.
    apply checkCO2Alert_suppress; [exact Hge2|].
    unfold clock at 1. cbn [hw with_hw emailAlertSent lastEmailSent negb orb].
    exact Hcool.
Qed.

Lemma evaluate_cooldown (st : AlertState) (now : Z) :
  (cooldownInterval <=? (now - lastNotifiedAt st) mod 2 ^ 32) =
  cooldown_elapsed now (lastNotifiedAt st).
Proof. reflexivity. Qed.

(** C6, as the sketch has it.  The alert state after [checkCO2Alert] and
    whether a notification is fired are the function [evaluate] of the
    alert state before, the co2 value and the clock.  The step is not free
    of I/O, though: it reads the clock itself and, when a notification is
    due, it calls [sendEmailAlert] and flashes the display itself; when
    none is due it makes no call besides reading the clock. *)
Theorem alert_step_decision_and_effects c t h s :
  alert_of (snd (fst (checkCO2Alert c t h s))) =
    fst (evaluate (alert_of s) c (clock s))
  /\ fired (snd (checkCO2Alert c t h s)) =
       snd (evaluate (alert_of s) c (clock s))
  /\ if snd (evaluate (alert_of s) c (clock s))
     then exists w' trm,
         sendEmailAlert c t h (with_hw s (snd (hw_millis (hw s)))) =
           (tt, with_hw s w', trm) /\
         checkCO2Alert c t h s =
           (tt, mkState (clock s) true (flashed w'),
            Millis (clock s) :: trm ++ flash)
     else snd (checkCO2Alert c t h s) = [] \/
          snd (checkCO2Alert c t h s) = [Millis (clock s)].
Proof.
  unfold evaluate. fold CO2_ALERT_THRESHOLD.
  change (threshold - hysteresisMargin) with (CO2_ALERT_THRESHOLD - 100).
  change threshold with CO2_ALERT_THRESHOLD.
  rewrite evaluate_cooldown. cbn [alert_of armed lastNotifiedAt].
  destruct (F32.ge c (F32.of_int CO2_ALERT_THRESHOLD)) eqn:Hge.
  - destruct (negb (emailAlertSent s)
              || cooldown_elapsed (clock s) (lastEmailSent s)) eqn:Hcond.
    + destruct (checkCO2Alert_fire c t h s Hge Hcond) as (w' & trm & Em & E).
      assert (Hf : fired (Millis (clock s) :: trm ++ flash) = true).
      { change (fired ([Millis (clock s)] ++ trm ++ flash) = true).
        now rewrite !fired_app, (sendEmailAlert_fired _ _ _ _ _ _ Em). }
      destruct (emailAlertSent s); cbn [negb orb] in Hcond;
        [rewrite Hcond|]; cbn [fst snd]; rewrite E; cbn [fst snd alert_of];
        (split; [reflexivity|split; [exact Hf|]]);
        exists w', trm; (split; [exact Em|reflexivity]).
    + rewrite (checkCO2Alert_suppress c t h s Hge Hcond).
      apply orb_false_iff in Hcond. destruct Hcond as [Ha Hc].
      apply negb_false_iff in Ha. rewrite Ha, Hc. cbn [fst snd fired existsb].
      split; [reflexivity|]. auto.
  - destruct (F32.lt c (F32.of_int (CO2_ALERT_THRESHOLD - 100))) eqn:Hlt.
    + rewrite (checkCO2Alert_release c t h s Hlt). cbn. auto.
    + rewrite (checkCO2Alert_hold c t h s Hge Hlt). cbn. auto.
Qed.

End Alert.

(** C6, as it is written, fails: evaluating a reading of 1200 ppm at boot in
    a world where everything works, [checkCO2Alert] itself calls the mail
    transport, sets the display colour and waits. *)
Lemma checkCO2Alert_dispatches_and_flashes :
  let tr := snd (checkCO2Alert (co2 Sim.rd_high) (temperature Sim.rd_high)
                   (humidity Sim.rd_high) (Sim.boot (Sim.healthy 0 []))) in
  mail_calls tr <> [] /\
  In (LcdSetRGB 255 0 0) (lcd_calls tr) /\
  In (Out (Delay 1000)) tr.
Proof.
  vm_compute. split; [discriminate|]. split; auto 30.
Qed.

(** ** Bounded retry *)

Lemma pick_none {A : Type} (f : event -> option A) (tr : trace) :
  Forall (fun e => f e = None) tr -> pick f tr = [].
Proof.
  induction 1 as [|e tr He _ IH]; cbn [pick]; [reflexivity|].
  now rewrite He.
Qed.

Lemma existsb_none (f : event -> bool) (tr : trace) :
  Forall (fun e => f e = false) tr -> existsb f tr = false.
Proof.
  induction 1 as [|e tr He _ IH]; cbn [existsb]; [reflexivity|].
  now rewrite He.
Qed.

(** A trace of [quiet] events publishes nothing, sends no mail and leaves
    the buzzer alone. *)
Lemma quiet_trace (tr : trace) :
  Forall (fun e => quiet e = true) tr ->
  publish_calls tr = [] /\ mail_calls tr = [] /\ buzzer_writes tr = [] /\
  fired tr = false.
Proof.
  intros Hq.
  repeat split; (apply pick_none || apply existsb_none);
    (revert Hq; apply Forall_impl; intros [[]| | | | | | | | |]; cbn;
     congruence).
Qed.

(** A trace of [alerting] events publishes nothing, reads no sensor and
    leaves the buzzer alone. *)
Lemma alerting_trace (tr : trace) :
  Forall (fun e => alerting e = true) tr ->
  publish_calls tr = [] /\ sensor_calls tr = [] /\ buzzer_writes tr = [].
Proof.
  intros Hq.
  repeat split; apply pick_none;
    (revert Hq; apply Forall_impl; intros [[]| | | | | | | | |]; cbn;
     congruence).
Qed.

Lemma repeat_false_no_true (n k : nat) :
  repeat false n <> repeat false k ++ [true].
Proof.
  intros E.
  assert (Hin : In true (repeat false n))
    by (rewrite E; apply in_or_app; right; now left).
  apply repeat_spec in Hin. discriminate.
Qed.

Section Retry.

Context {W : Type} `{Hardware W} `{Platform}.

Implicit Types (s : state W).

(** What [readSensor_for] does with [n] turns left: some failed reads, each
    followed by a delay, and then either a read that succeeds, whose
    measurement it returns, or nothing more once [n] reads have failed. *)
Lemma readSensor_for_spec (n : nat) s r s' tr :
  readSensor_for n s = (r, s', tr) ->
  (exists w', s' = with_hw s w') /\
  Forall (fun e => quiet e = true) tr /\
  match r with
  | Some rd =>
      exists k, (k < n)%nat /\
                sensor_calls tr = repeat false k ++ [true] /\
                exists tr0, tr = tr0 ++ [Scd30Read (Some rd)]
  | None => sensor_calls tr = repeat false n
  end.
Proof.
  revert s r s' tr. induction n as [|n IH]; intros s r s' tr E.
  - injection E as <- <- <-.
    split; [exists (hw s); now destruct s|]. split; constructor.
  - cbn [readSensor_for] in E.
    unfold bind at 1 in E. unfold scd30_blockingReadMeasurementData, call in E.
    destruct (hw_scd30_read (hw s)) as [[rd|] w1].
    + injection E as <- <- <-.
      split; [now exists w1|]. split; [repeat constructor|].
      exists 0%nat. split; [lia|]. split; [reflexivity|]. now exists [].
    + unfold bind at 1 in E. unfold delay at 1, emit in E.
      cbn [hw with_hw] in E.
      match type of E with
      | context [readSensor_for n ?s1] =>
          destruct (readSensor_for n s1) as [[r2 s2] t2] eqn:E2
      end.
      injection E as <- <- <-.
      apply IH in E2. destruct E2 as ((w' & ->) & Hq & Hr).
      split; [now exists w'|].
      split; [repeat constructor; exact Hq|].
      destruct r2 as [rd|].
      * destruct Hr as (k & Hk & Hc & tr0 & ->).
        exists (S k). split; [lia|]. split.
        -- unfold sensor_calls in *. cbn [pick app]. rewrite Hc. reflexivity.
        -- now exists (Scd30Read None :: Out (Delay 500) :: tr0).
      * unfold sensor_calls in *. cbn [pick app]. rewrite Hr. reflexivity.
Qed.

(** The same for [publish_for]; every call carries the topic, the payload
    and the retain flag it was given. *)
Lemma publish_for_spec (tp pl : string) (n : nat) s ok s' tr :
  publish_for tp pl n s = (ok, s', tr) ->
  (exists w', s' = with_hw s w') /\
  buzzer_writes tr = [] /\
  publish_calls tr = repeat (tp, pl, true) (List.length (publish_results tr)) /\
  if ok
  then exists k, (k < n)%nat /\
                 publish_results tr = repeat false k ++ [true] /\
                 exists tr0, tr = tr0 ++ [MqttPublish tp pl true true]
  else publish_results tr = repeat false n.
Proof.
  revert s ok s' tr. induction n as [|n IH]; intros s ok s' tr E.
  - injection E as <- <- <-.
    split; [exists (hw s); now destruct s|]. repeat split.
  - cbn [publish_for] in E.
    unfold bind at 1 in E. unfold client_publish, call in E.
    destruct (hw_mqtt_publish tp pl true (hw s)) as [[|] w1].
    + injection E as <- <- <-.
      split; [now exists w1|]. split; [reflexivity|]. split; [reflexivity|].
      exists 0%nat. split; [lia|]. split; [reflexivity|]. now exists [].
    + unfold bind at 1 in E. unfold delay at 1, emit in E.
      cbn [hw with_hw] in E.
      match type of E with
      | context [publish_for tp pl n ?s1] =>
          destruct (publish_for tp pl n s1) as [[ok2 s2] t2] eqn:E2
      end.
      injection E as <- <- <-.
      apply IH in E2. destruct E2 as ((w' & ->) & Hb & Hc & Hr).
      split; [now exists w'|].
      split; [exact Hb|].
      split.
      { unfold publish_calls, publish_results in *. cbn [pick app List.length repeat].
        now rewrite Hc. }
      destruct ok2.
      * destruct Hr as (k & Hk & Hres & tr0 & ->).
        exists (S k). split; [lia|]. split.
        -- unfold publish_results in *. cbn [pick app]. rewrite Hres. reflexivity.
        -- now exists (MqttPublish tp pl true false :: Out (Delay 1000) :: tr0).
      * unfold publish_results in *. cbn [pick app]. rewrite Hr. reflexivity.
Qed.

End Retry.

(** ** The main loop *)

Lemma is_ascii_append (a b : string) :
  is_ascii (a ++ b)%string = is_ascii a && is_ascii b.
Proof.
  unfold is_ascii. induction a as [|c a IH]; [reflexivity|].
  cbn [String.append list_ascii_of_string forallb].
  now rewrite IH, andb_assoc.
Qed.

Section Loop.

Context {W : Type} `{Hardware W} `{Platform}.

Implicit Types (s : state W).

Lemma reconnect_attempt_spec s s' tr :
  reconnect_attempt s = (tt, s', tr) ->
  (exists w', s' = with_hw s w') /\ Forall (fun e => quiet e = true) tr.
Proof.
  unfold reconnect_attempt, bind, client_connect, call, lcd_clear,
    lcd_setCursor, lcd_print, Serial_println, delay, emit.
  cbn [hw with_hw].
  match goal with
  | |- context [hw_mqtt_connect ?w] => destruct (hw_mqtt_connect w) as [[|] w1]
  end; intros [= <- <-]; (split; [eexists; reflexivity|repeat constructor]).
Qed.

Lemma reconnectMQTT_spec (fuel : nat) s s' tr :
  reconnectMQTT fuel s = Some (tt, s', tr) ->
  (exists w', s' = with_hw s w') /\ Forall (fun e => quiet e = true) tr.
Proof.
  revert s s' tr. induction fuel as [|fuel IH]; intros s s' tr E;
    [discriminate|].
  cbn [reconnectMQTT] in E. unfold bindP at 1 in E.
  unfold lift at 1, client_connected, call in E.
  destruct (hw_mqtt_connected (hw s)) as [[|] w1]; cbn [negb] in E.
  - injection E as <- <-.
    split; [now exists w1|repeat constructor].
  - unfold bindP at 1 in E. unfold lift at 1 in E.
    destruct (reconnect_attempt (with_hw s w1)) as [[[] s2] t2] eqn:E2.
    apply reconnect_attempt_spec in E2. destruct E2 as ((w2 & ->) & Hq2).
    destruct (reconnectMQTT fuel (with_hw (with_hw s w1) w2))
      as [[[[] s3] t3]|] eqn:E3; [|discriminate].
    injection E as <- <-.
    apply IH in E3. destruct E3 as ((w3 & ->) & Hq3).
    split; [now exists w3|].
    constructor; [reflexivity|]. apply Forall_app. split; assumption.
Qed.

(** More fuel does not change what [reconnectMQTT] returns. *)
Lemma reconnectMQTT_fuel (fuel fuel' : nat) s r :
  reconnectMQTT fuel s = Some r ->
  (fuel <= fuel')%nat ->
  reconnectMQTT fuel' s = Some r.
Proof.
  revert fuel' s r. induction fuel as [|fuel IH]; intros fuel' s r E Hle;
    [discriminate|].
  destruct fuel' as [|fuel']; [lia|].
  cbn [reconnectMQTT] in *. unfold bindP at 1 in E. unfold bindP at 1.
  destruct (lift client_connected s) as [[[c s1] t1]|]; [|discriminate].
  destruct c; cbn [negb] in *; [exact E|].
  unfold bindP at 1 in E. unfold bindP at 1.
  destruct (lift reconnect_attempt s1) as [[[[] s2] t2]|]; [|discriminate].
  destruct (reconnectMQTT fuel s2) as [r2|] eqn:E2; [|discriminate].
  rewrite (IH fuel' s2 r2 E2) by lia. exact E.
Qed.

(** [reconnectMQTT] returns as soon as the client reports a connection;
    [n] failed checks before that take [n + 1] units of fuel. *)
Lemma reconnectMQTT_connected (fuel : nat) s :
  fst (hw_mqtt_connected (hw s)) = true ->
  exists s' tr, reconnectMQTT (S fuel) s = Some (tt, s', tr).
Proof.
  intros Hc. cbn [reconnectMQTT]. unfold bindP, lift, client_connected, call.
  destruct (hw_mqtt_connected (hw s)) as [c w1]. cbn [fst] in Hc. subst c.
  cbn [negb]. unfold retP. eexists; eexists; reflexivity.
Qed.

(** With the client connected, line 61 falls through, whatever the fuel. *)
Lemma loop_connect_connected (fuel : nat) s :
  fst (hw_mqtt_connected (hw s)) = true ->
  loop_connect fuel s =
    Some (tt, with_hw s (snd (hw_mqtt_connected (hw s))), [MqttConnected true]).
Proof.
  intros Hc. unfold loop_connect, bindP, lift, client_connected, call.
  destruct (hw_mqtt_connected (hw s)) as [c w1]. cbn [fst snd] in *. subst c.
  reflexivity.
Qed.

Lemma loop_connect_spec (fuel : nat) s s' tr :
  loop_connect fuel s = Some (tt, s', tr) ->
  (exists w', s' = with_hw s w') /\ Forall (fun e => quiet e = true) tr.
Proof.
  unfold loop_connect, bindP. unfold lift at 1, client_connected, call.
  destruct (hw_mqtt_connected (hw s)) as [[|] w1]; cbn [negb].
  - intros [= <- <-]. split; [now exists w1|repeat constructor].
  - destruct (reconnectMQTT fuel (with_hw s w1)) as [[[[] s2] t2]|] eqn:E2;
      [|discriminate].
    intros [= <- <-].
    apply reconnectMQTT_spec in E2. destruct E2 as ((w2 & ->) & Hq2).
    split; [now exists w2|]. constructor; [reflexivity|assumption].
Qed.

Lemma loop_acquire_spec s r s' tr :
  loop_acquire s = (r, s', tr) ->
  (exists w', s' = with_hw s w') /\
  Forall (fun e => quiet e = true) tr /\
  match r with
  | Some rd =>
      exists k, (k < 3)%nat /\
                sensor_calls tr = repeat false k ++ [true] /\
                exists tr0, tr = tr0 ++ [Scd30Read (Some rd)]
  | None => sensor_calls tr = [false; false; false]
  end.
Proof.
  unfold loop_acquire, bind, client_loop, readSensorWithRetry.
  destruct (readSensor_for (Z.to_nat default_maxRetries)
              (with_hw s (hw_mqtt_loop (hw s)))) as [[r2 s2] t2] eqn:E2.
  intros [= <- <- <-].
  apply readSensor_for_spec in E2. destruct E2 as ((w2 & ->) & Hq & Hr).
  split; [now exists w2|].
  split; [constructor; [reflexivity|assumption]|].
  destruct r2 as [rd|].
  - destruct Hr as (k & Hk & Hc & tr0 & ->).
    exists k. split; [exact Hk|]. split; [exact Hc|].
    now exists (MqttLoop :: tr0).
  - exact Hr.
Qed.

Lemma checkCO2Alert_alerting c t h s s' tr :
  checkCO2Alert c t h s = (tt, s', tr) ->
  Forall (fun e => alerting e = true) tr.
Proof.
  intros E.
  destruct (F32.ge c (F32.of_int CO2_ALERT_THRESHOLD)) eqn:Hge.
  - destruct (negb (emailAlertSent s)
              || cooldown_elapsed (clock s) (lastEmailSent s)) eqn:Hcond.
    + destruct (checkCO2Alert_fire c t h s Hge Hcond) as (w' & trm & Em & E').
      rewrite E' in E. injection E as <- <-.
      constructor; [reflexivity|]. apply Forall_app. split;
        [|repeat constructor].
      destruct (sendEmailAlert_cases c t h (with_hw s (snd (hw_millis (hw s)))))
        as (w2 & tr2 & E2 & Hc).
      rewrite E2 in Em. injection Em as <- <-.
      destruct Hc as [[_ ->]|[[_ ->]|[[_ ->]|[_ ->]]]]; repeat constructor.
    + rewrite (checkCO2Alert_suppress c t h s Hge Hcond) in E.
      injection E as <- <-. repeat constructor.
  - destruct (F32.lt c (F32.of_int (CO2_ALERT_THRESHOLD - 100))) eqn:Hlt.
    + rewrite (checkCO2Alert_release c t h s Hlt) in E.
      injection E as <- <-. constructor.
    + rewrite (checkCO2Alert_hold c t h s Hge Hlt) in E.
      injection E as <- <-. constructor.
Qed.

(** [loop_report], piece by piece: the alert evaluation, the notice, the
    publish attempts, the failure report if they all failed, the summary
    and the buzzer. *)
Lemma loop_report_spec (rd : reading) s s' tr :
  loop_report rd s = (tt, s', tr) ->
  exists sa tra sq ok sp trp,
    checkCO2Alert (co2 rd) (temperature rd) (humidity rd) s = (tt, sa, tra) /\
    publishWithRetry topic (payload_of rd) default_maxRetries sq = (ok, sp, trp) /\
    alert_of s' = alert_of sa /\
    tr = tra ++ publish_notice (payload_of rd) ++ trp ++
         (if ok then [] else publish_failed_report) ++
         summary rd ++ buzz (int_of_float (co2 rd) >? 1000).
Proof.
  unfold loop_report.
  unfold bind at 1.
  destruct (checkCO2Alert (co2 rd) (temperature rd) (humidity rd) s)
    as [[[] sa] tra] eqn:Ea.
  unfold bind, Serial_println, lcd_clear, lcd_setCursor, lcd_print,
    lcd_print_int, lcd_write, digitalWrite, delay, emit, ret.
  cbn [hw with_hw lastEmailSent emailAlertSent].
  match goal with
  | |- context [publishWithRetry topic (payload_of rd) default_maxRetries ?s1] =>
      set (sq := s1);
      destruct (publishWithRetry topic (payload_of rd) default_maxRetries sq)
        as [[ok sp] trp] eqn:Ep
  end.
  pose proof Ep as Hp. unfold publishWithRetry in Hp.
  apply publish_for_spec in Hp. destruct Hp as ((wp & Hsp) & _).
  intros E. exists sa, tra, sq, ok, sp, trp.
  split; [reflexivity|]. split; [exact Ep|].
  subst sp.
  destruct ok; destruct (int_of_float (co2 rd) >? 1000);
    cbn [negb hw with_hw lastEmailSent emailAlertSent] in E;
    injection E as <- <-; (split; [reflexivity|]); reflexivity.
Qed.

(** C5 (a failed acquisition ends the cycle).  When the connection step
    returns and the three sensor reads of the cycle all fail, [loop] returns
    after showing the sensor error: the rest of its trace is that report,
    the alert globals are what they were, and the cycle published nothing,
    called neither [sendEmailAlert] nor the mail transport, and did not
    touch the buzzer. *)
Theorem sensor_failure_ends_cycle (fuel : nat) s s1 tr1 s2 tr2 :
  loop_connect fuel s = Some (tt, s1, tr1) ->
  loop_acquire s1 = (None, s2, tr2) ->
  exists s' tr,
    loop fuel s = Some (tt, s', tr) /\
    tr = tr1 ++ tr2 ++ sensor_error_report /\
    sensor_calls tr2 = [false; false; false] /\
    lastEmailSent s' = lastEmailSent s /\
    emailAlertSent s' = emailAlertSent s /\
    publish_calls tr = [] /\ mail_calls tr = [] /\ buzzer_writes tr = [] /\
    fired tr = false.
Proof.
  intros Ec Ea.
  pose proof (loop_connect_spec _ _ _ _ Ec) as ((w1 & ->) & Hq1).
  pose proof (loop_acquire_spec _ _ _ _ Ea) as ((w2 & ->) & Hq2 & Hcalls).
  eexists; eexists. split.
  { unfold loop, bindP. rewrite Ec. unfold lift, loop_cycle, bind.
    rewrite Ea. unfold loop_sensor_error, bind, lcd_clear, lcd_print, delay, emit.
    cbn [hw with_hw]. reflexivity. }
  split; [reflexivity|]. split; [exact Hcalls|].
  split; [reflexivity|]. split; [reflexivity|].
  apply quiet_trace.
  apply Forall_app. split; [exact Hq1|].
  apply Forall_app. split; [exact Hq2|].
  repeat constructor.
Qed.

(** The part of a cycle with a reading that comes before the buzzer. *)
Lemma loop_report_buzzer (rd : reading) s s' tr :
  loop_report rd s = (tt, s', tr) ->
  exists tr0,
    tr = tr0 ++ buzz (int_of_float (co2 rd) >? 1000) /\
    buzzer_writes tr0 = [].
Proof.
  intros E.
  destruct (loop_report_spec rd s s' tr E)
    as (sa & tra & sq & ok & sp & trp & Ea & Ep & _ & ->).
  exists (tra ++ publish_notice (payload_of rd) ++ trp ++
          (if ok then [] else publish_failed_report) ++ summary rd).
  split; [now rewrite <- !app_assoc|].
  apply checkCO2Alert_alerting, alerting_trace in Ea.
  destruct Ea as (_ & _ & Hba).
  unfold publishWithRetry in Ep. apply publish_for_spec in Ep.
  destruct Ep as (_ & Hbp & _).
  unfold buzzer_writes in *. rewrite !pick_app, Hba, Hbp.
  destruct ok; reflexivity.
Qed.

(** The publish calls of a cycle with a reading. *)
Lemma loop_report_publish (rd : reading) s s' tr :
  loop_report rd s = (tt, s', tr) ->
  exists n, (1 <= n <= 3)%nat /\
            publish_calls tr = repeat (topic, payload_of rd, true) n.
Proof.
  intros E.
  destruct (loop_report_spec rd s s' tr E)
    as (sa & tra & sq & ok & sp & trp & Ea & Ep & _ & ->).
  apply checkCO2Alert_alerting, alerting_trace in Ea.
  destruct Ea as (Hpa & _).
  unfold publishWithRetry in Ep. apply publish_for_spec in Ep.
  destruct Ep as (_ & _ & Hpp & Hres).
  exists (List.length (publish_results trp)). split.
  - destruct ok.
    + destruct Hres as (k & Hk & -> & _).
      rewrite List.length_app, repeat_length. cbn in *. lia.
    + rewrite Hres, repeat_length. cbn. lia.
  - unfold publish_calls in *. rewrite !pick_app, Hpa, Hpp.
    destruct ok; cbn [app pick publish_notice publish_failed_report summary buzz];
      destruct (int_of_float (co2 rd) >? 1000); cbn; rewrite ?app_nil_r; reflexivity.
Qed.

Lemma loop_with_reading (fuel : nat) s s1 tr1 rd s2 tr2 :
  loop_connect fuel s = Some (tt, s1, tr1) ->
  loop_acquire s1 = (Some rd, s2, tr2) ->
  exists s' tr3,
    loop_report rd s2 = (tt, s', tr3) /\
    loop fuel s = Some (tt, s', tr1 ++ tr2 ++ tr3).
Proof.
  intros Ec Ea.
  destruct (loop_report rd s2) as [[[] s'] tr3] eqn:Er.
  exists s', tr3. split; [reflexivity|].
  unfold loop, bindP. rewrite Ec. unfold lift, loop_cycle, bind.
  rewrite Ea, Er. reflexivity.
Qed.

(** C3 (retry bound).  With [maxRetries = n], [readSensorWithRetry] reads
    the sensor at most [n] times; when it succeeds, the successful read is
    the last call it makes, the reads before it all failed and it returns
    the measurement of that read; it fails exactly when [n] reads were made
    and all failed.  The same holds for [publishWithRetry] and the calls
    of [client.publish].  [loop] runs both with the default, 3: a cycle
    reads the sensor at most three times and publishes at most three
    times. *)
Theorem retry_bound (maxRetries : Z) :
  (forall s r s' tr,
      readSensorWithRetry maxRetries s = (r, s', tr) ->
      (List.length (sensor_calls tr) <= Z.to_nat maxRetries)%nat /\
      (forall rd, r = Some rd ->
         exists k, (k < Z.to_nat maxRetries)%nat /\
                   sensor_calls tr = repeat false k ++ [true] /\
                   exists tr0, tr = tr0 ++ [Scd30Read (Some rd)]) /\
      (r = None <-> sensor_calls tr = repeat false (Z.to_nat maxRetries)))
  /\ (forall tp pl s ok s' tr,
        publishWithRetry tp pl maxRetries s = (ok, s', tr) ->
        (List.length (publish_results tr) <= Z.to_nat maxRetries)%nat /\
        (ok = true ->
           exists k, (k < Z.to_nat maxRetries)%nat /\
                     publish_results tr = repeat false k ++ [true] /\
                     exists tr0, tr = tr0 ++ [MqttPublish tp pl true true]) /\
        (ok = false <->
           publish_results tr = repeat false (Z.to_nat maxRetries)))
  /\ (forall s r s' tr,
        loop_acquire s = (r, s', tr) ->
        (List.length (sensor_calls tr) <= 3)%nat)
  /\ (forall rd s s' tr,
        loop_report rd s = (tt, s', tr) ->
        (List.length (publish_calls tr) <= 3)%nat).
Proof.
  split; [|split; [|split]].
  - intros s r s' tr E. unfold readSensorWithRetry in E.
    apply readSensor_for_spec in E. destruct E as (_ & _ & Hr).
    destruct r as [rd|].
    + destruct Hr as (k & Hk & Hc & Htr).
      split; [rewrite Hc, List.length_app, repeat_length; cbn; lia|].
      split.
      * intros rd' [= <-]. now exists k.
      * split; [discriminate|]. rewrite Hc. intros E.
        symmetry in E. now apply repeat_false_no_true in E.
    + split; [rewrite Hr, repeat_length; lia|].
      split; [discriminate|]. now split.
  - intros tp pl s ok s' tr E. unfold publishWithRetry in E.
    apply publish_for_spec in E. destruct E as (_ & _ & _ & Hr).
    destruct ok.
    + destruct Hr as (k & Hk & Hc & Htr).
      split; [rewrite Hc, List.length_app, repeat_length; cbn; lia|].
      split.
      * intros _. now exists k.
      * split; [discriminate|]. rewrite Hc. intros E.
        symmetry in E. now apply repeat_false_no_true in E.
    + split; [rewrite Hr, repeat_length; lia|].
      split; [discriminate|]. now split.
  - intros s r s' tr E. apply loop_acquire_spec in E.
    destruct E as (_ & _ & Hr). destruct r as [rd|].
    + destruct Hr as (k & Hk & -> & _).
      rewrite List.length_app, repeat_length. cbn. lia.
    + rewrite Hr. cbn. lia.
  - intros rd s s' tr E. apply loop_report_publish in E.
    destruct E as (n & Hn & ->). rewrite repeat_length. lia.
Qed.

(** C4, as the sketch has it.  In a cycle that gets a reading whose co2
    value converts to an [int] z, the buzzer pin is written at the very end
    of the cycle and nowhere else: HIGH, held for 1000 ms, then LOW, when
    z > 1000, and only LOW otherwise.  What decides is the co2 value
    truncated to an integer, whatever the alert globals are; for a
    well-formed reading z > 1000 means co2 >= 1001. *)
Theorem buzzer_follows_truncated_co2 (fuel : nat) s s1 tr1 rd s2 tr2 (z : Z) :
  loop_connect fuel s = Some (tt, s1, tr1) ->
  loop_acquire s1 = (Some rd, s2, tr2) ->
  F32.to_int (co2 rd) = Some z ->
  exists s' tr tr0,
    loop fuel s = Some (tt, s', tr) /\
    tr = tr0 ++ buzz (1000 <? z) /\
    buzzer_writes tr0 = [] /\
    (buzzer_writes tr = if 1000 <? z then [HIGH; LOW] else [LOW]) /\
    (F32.valid (co2 rd) = true ->
     (1000 <? z) = F32.ge (co2 rd) (F32.of_int 1001)).
Proof.
  intros Ec Ea Hz.
  destruct (loop_with_reading _ _ _ _ _ _ _ Ec Ea) as (s' & tr3 & Er & El).
  destruct (loop_report_buzzer _ _ _ _ Er) as (tr0 & -> & Hb0).
  assert (Hint : (int_of_float (co2 rd) >? 1000) = (1000 <? z)).
  { unfold int_of_float. rewrite Hz. apply Z.gtb_ltb. }
  rewrite Hint in El.
  apply loop_connect_spec, proj2, quiet_trace in Ec.
  apply loop_acquire_spec, proj2, proj1, quiet_trace in Ea.
  destruct Ec as (_ & _ & Hb1 & _). destruct Ea as (_ & _ & Hb2 & _).
  assert (Hpre : buzzer_writes (tr1 ++ tr2 ++ tr0) = []).
  { unfold buzzer_writes in *. now rewrite !pick_app, Hb1, Hb2, Hb0. }
  exists s', (tr1 ++ tr2 ++ tr0 ++ buzz (1000 <? z)), (tr1 ++ tr2 ++ tr0).
  split; [exact El|].
  split; [now rewrite <- !app_assoc|].
  split; [exact Hpre|].
  replace (tr1 ++ tr2 ++ tr0 ++ buzz (1000 <? z))
    with ((tr1 ++ tr2 ++ tr0) ++ buzz (1000 <? z))
    by now rewrite <- !app_assoc.
  split.
  - unfold buzzer_writes in *. rewrite pick_app, Hpre.
    destruct (1000 <? z); reflexivity.
  - intros Hv. now apply truncated_above_1000.
Qed.

(** C7 (payload).  In a cycle that gets a reading, [client.publish] is
    called one to three times, each time with the topic of the channel, the
    retain flag set and the payload
    field1=<co2>&field2=<temperature>&field3=<humidity>&status=MQTTPUBLISH
    where the values are rendered by [String(x)], that is with two
    decimals.  The payload is ASCII as soon as the rendering is. *)
Theorem payload_wire_format (fuel : nat) s s1 tr1 rd s2 tr2 :
  loop_connect fuel s = Some (tt, s1, tr1) ->
  loop_acquire s1 = (Some rd, s2, tr2) ->
  let payload :=
    ("field1=" ++ String_float (co2 rd) 2 ++
     "&field2=" ++ String_float (temperature rd) 2 ++
     "&field3=" ++ String_float (humidity rd) 2 ++
     "&status=MQTTPUBLISH")%string in
  exists s' tr n,
    loop fuel s = Some (tt, s', tr) /\
    (1 <= n <= 3)%nat /\
    publish_calls tr = repeat ("channels/3141928/publish"%string, payload, true) n /\
    ((forall x d, is_ascii (String_float x d) = true) -> is_ascii payload = true).
Proof.
  intros Ec Ea payload.
  destruct (loop_with_reading _ _ _ _ _ _ _ Ec Ea) as (s' & tr3 & Er & El).
  destruct (loop_report_publish _ _ _ _ Er) as (n & Hn & Hp).
  apply loop_connect_spec, proj2, quiet_trace in Ec.
  apply loop_acquire_spec, proj2, proj1, quiet_trace in Ea.
  destruct Ec as (Hp1 & _). destruct Ea as (Hp2 & _).
  exists s', (tr1 ++ tr2 ++ tr3), n.
  split; [exact El|]. split; [exact Hn|]. split.
  - unfold publish_calls in *. rewrite !pick_app, Hp1, Hp2, Hp. reflexivity.
  - intros Hrender. unfold payload.
    rewrite !is_ascii_append, !Hrender. reflexivity.
Qed.

End Loop.

(** * The sketch on the scripted world *)

(** ** The scenarios of the specification (section 8) *)

(** Scenario 1: 500 ppm, no alert pending: nothing happens. *)
Example scenario_1 :
  Sim.evaluate_at Sim.rd_fresh (Sim.boot (Sim.healthy 0 [])) =
    (tt, Sim.boot (Sim.healthy 0 []), []).
Proof. vm_compute. reflexivity. Qed.

(** Scenario 2: 1200 ppm at 0 s, no alert pending: a notification, stamped 0. *)
Example scenario_2 :
  let r := Sim.evaluate_at Sim.rd_high (Sim.boot (Sim.healthy 0 [])) in
  alert_of (snd (fst r)) = mkAlert true 0 /\
  fired (snd r) = true /\ delivered (snd r) = true.
Proof. vm_compute. repeat split. Qed.

(** Scenario 3: 30 s later the alert is still pending and nothing is sent. *)
Example scenario_3 :
  Sim.evaluate_at Sim.rd_high (Sim.pending 0 (Sim.healthy 30000 [])) =
    (tt, Sim.pending 0 (Sim.healthy 30000 []), [Millis 30000]).
Proof. vm_compute. reflexivity. Qed.

(** Scenario 4: at 90 s a second notification, stamped 90000. *)
Example scenario_4 :
  let r := Sim.evaluate_at Sim.rd_high (Sim.pending 0 (Sim.healthy 90000 [])) in
  alert_of (snd (fst r)) = mkAlert true 90000 /\ fired (snd r) = true.
Proof. vm_compute. repeat split. Qed.

(** Scenario 5: 850 ppm with an alert pending clears it. *)
Example scenario_5 :
  Sim.evaluate_at Sim.rd_low (Sim.pending 0 (Sim.healthy 5000 [])) =
    (tt, Sim.boot (Sim.healthy 5000 []), []).
Proof. vm_compute. reflexivity. Qed.

(** ** The claims on concrete runs *)

(** C1 at 950 ppm with an alert pending. *)
Lemma hysteresis_band_holds_witness :
  let s := Sim.pending 0 (Sim.healthy 5000 []) in
  let rd := Sim.rd_band in
  emailAlertSent s = true /\
  F32.ge (co2 rd) (F32.of_int (CO2_ALERT_THRESHOLD - 100)) = true /\
  F32.lt (co2 rd) (F32.of_int CO2_ALERT_THRESHOLD) = true /\
  checkCO2Alert (co2 rd) (temperature rd) (humidity rd) s = (tt, s, []).
Proof.
  cbv zeta.
  assert (Hge : F32.ge (co2 Sim.rd_band) (F32.of_int (CO2_ALERT_THRESHOLD - 100)) = true)
    by (vm_compute; reflexivity).
  assert (Hlt : F32.lt (co2 Sim.rd_band) (F32.of_int CO2_ALERT_THRESHOLD) = true)
    by (vm_compute; reflexivity).
  split; [reflexivity|]. split; [exact Hge|]. split; [exact Hlt|].
  exact (proj1 (hysteresis_band_holds (co2 Sim.rd_band) (temperature Sim.rd_band)
                  (humidity Sim.rd_band) (Sim.pending 0 (Sim.healthy 5000 []))
                  eq_refl) Hge Hlt).
Defined.

(** The run of scenarios 2 to 4: 1200 ppm at 0 s, 30 s and 90 s. *)
Lemma steady_run :
  alert_run (Sim.boot (Sim.healthy 0 [])) Sim.steady
            (Sim.pending 90000 (Sim.healthy 93000 [])).
Proof.
  unfold Sim.steady.
  apply run_step_at with (w := Sim.healthy 30000 []);
    [reflexivity | vm_compute; reflexivity |].
  apply run_step_at with (w := Sim.healthy 90000 []);
    [reflexivity | vm_compute; reflexivity |].
  apply run_step_at with (w := Sim.healthy 93000 []);
    [reflexivity | vm_compute; reflexivity |].
  vm_compute. apply run_done.
Defined.

Lemma steady_hot : Forall hot Sim.steady.
Proof. repeat constructor; vm_compute; reflexivity. Defined.

Lemma steady_sorted : StronglySorted Z.le (map ev_time Sim.steady).
Proof. repeat constructor; discriminate. Defined.

(** C2 on that run: notifications at 0 s and 90 s, none at 30 s. *)
Lemma cooldown_between_notifications_witness :
  alert_run (Sim.boot (Sim.healthy 0 [])) Sim.steady
            (Sim.pending 90000 (Sim.healthy 93000 [])) /\
  Forall hot Sim.steady /\
  StronglySorted Z.le (map ev_time Sim.steady) /\
  notified_at Sim.steady = [0; 90000] /\
  StronglySorted gap (notified_at Sim.steady).
Proof.
  split; [exact steady_run|]. split; [exact steady_hot|].
  split; [exact steady_sorted|]. split; [reflexivity|].
  exact (proj1 (cooldown_between_notifications _ _ _
                  steady_run steady_hot steady_sorted)).
Defined.

(** C3 on a sensor that fails three times and then answers. *)
Lemma retry_bound_witness :
  let s := Sim.boot (Sim.blind 0) in
  fst (fst (readSensorWithRetry 3 s)) = None /\
  sensor_calls (snd (readSensorWithRetry 3 s)) = [false; false; false] /\
  fst (fst (readSensorWithRetry 4 s)) = Some Sim.rd_high /\
  sensor_calls (snd (readSensorWithRetry 4 s)) = [false; false; false; true].
Proof.
  cbv zeta.
  destruct (readSensorWithRetry 3 (Sim.boot (Sim.blind 0))) as [[r3 s3] tr3] eqn:E3.
  destruct (readSensorWithRetry 4 (Sim.boot (Sim.blind 0))) as [[r4 s4] tr4] eqn:E4.
  assert (H3 : r3 = None) by (vm_compute in E3; congruence).
  assert (H4 : r4 = Some Sim.rd_high) by (vm_compute in E4; vm_compute; congruence).
  cbn [fst snd].
  destruct (proj1 (retry_bound 3) _ _ _ _ E3) as (_ & _ & Hfail).
  destruct (proj1 (retry_bound 4) _ _ _ _ E4) as (_ & Hok & _).
  split; [exact H3|]. split; [exact (proj1 Hfail H3)|]. split; [exact H4|].
  destruct (Hok _ H4) as (k & Hk & Hc & tr0 & Htr).
  vm_compute in E4. injection E4 as _ _ <-. reflexivity.
Defined.

(** C5 (scenario 6): three failed reads with an alert pending since 7 ms. *)
Lemma sensor_failure_ends_cycle_witness :
  let s := Sim.pending 7 (Sim.blind 0) in
  exists s' tr,
    loop 0 s = Some (tt, s', tr) /\
    tr = [MqttConnected true; MqttLoop;
          Scd30Read None; Out (Delay 500); Scd30Read None; Out (Delay 500);
          Scd30Read None; Out (Delay 500);
          Out LcdClear; Out (LcdPrint "Sensor Error!"); Out (Delay 2000)] /\
    lastEmailSent s' = 7 /\ emailAlertSent s' = true /\
    publish_calls tr = [] /\ mail_calls tr = [] /\ fired tr = false.
Proof.
  cbv zeta.
  destruct (loop_connect 0 (Sim.pending 7 (Sim.blind 0)))
    as [[[[] s1] tr1]|] eqn:Ec; [|discriminate Ec].
  destruct (loop_acquire s1) as [[r s2] tr2] eqn:Ea.
  assert (Hr : r = None).
  { vm_compute in Ec. injection Ec as <- <-. vm_compute in Ea. congruence. }
  subst r.
  destruct (sensor_failure_ends_cycle 0 _ _ _ _ _ Ec Ea)
    as (s' & tr & El & Ht & _ & Hl & Ha & Hp & Hm & _ & Hf).
  exists s', tr.
  split; [exact El|].
  split.
  { rewrite Ht. vm_compute in Ec. injection Ec as <- <-.
    vm_compute in Ea. injection Ea as _ <-. reflexivity. }
  split; [exact Hl|]. split; [exact Ha|]. split; [exact Hp|].
  split; [exact Hm|exact Hf].
Defined.

(** C4 as amended, at 1200 ppm. *)
Lemma buzzer_follows_truncated_co2_witness :
  let s := Sim.boot (Sim.healthy 0 [Some Sim.rd_high]) in
  F32.to_int (co2 Sim.rd_high) = Some 1200 /\
  exists s' tr,
    loop 0 s = Some (tt, s', tr) /\ buzzer_writes tr = [HIGH; LOW].
Proof.
  cbv zeta.
  assert (Hz : F32.to_int (co2 Sim.rd_high) = Some 1200) by (vm_compute; reflexivity).
  split; [exact Hz|].
  destruct (loop_connect 0 (Sim.boot (Sim.healthy 0 [Some Sim.rd_high])))
    as [[[[] s1] tr1]|] eqn:Ec; [|discriminate Ec].
  destruct (loop_acquire s1) as [[r s2] tr2] eqn:Ea.
  assert (Hr : r = Some Sim.rd_high).
  { vm_compute in Ec. injection Ec as <- <-. vm_compute in Ea. vm_compute. congruence. }
  subst r.
  destruct (buzzer_follows_truncated_co2 0 _ _ _ _ _ _ 1200 Ec Ea Hz)
    as (s' & tr & tr0 & El & _ & _ & Hb & _).
  exists s', tr. split; [exact El|exact Hb].
Defined.

(** C4, as it is written, fails: a reading of 1000.5 ppm exceeds 1000 ppm,
    and the cycle that gets it only writes LOW to the buzzer. *)
Lemma buzzer_silent_just_above_threshold :
  let s := Sim.boot (Sim.healthy 0 [Some Sim.rd_edge]) in
  F32.valid (co2 Sim.rd_edge) = true /\
  F32.lt (F32.of_int 1000) (co2 Sim.rd_edge) = true /\
  exists s' tr,
    loop 0 s = Some (tt, s', tr) /\
    In (Scd30Read (Some Sim.rd_edge)) tr /\
    buzzer_writes tr = [LOW].
Proof.
  cbv zeta. split; [vm_compute; reflexivity|]. split; [vm_compute; reflexivity|].
  destruct (loop 0 (Sim.boot (Sim.healthy 0 [Some Sim.rd_edge])))
    as [[[[] s'] tr]|] eqn:El; [|vm_compute in El; discriminate El].
  exists s', tr. split; [reflexivity|].
  vm_compute in El. injection El as _ <-.
  split; [vm_compute; auto|reflexivity].
Qed.

(** C7 for 1200 ppm, 21.5 degrees, 40 percent. *)
Lemma payload_wire_format_witness :
  let s := Sim.boot (Sim.healthy 0 [Some Sim.rd_high]) in
  exists s' tr,
    loop 0 s = Some (tt, s', tr) /\
    publish_calls tr =
      [("channels/3141928/publish"%string,
        "field1=1200.00&field2=21.50&field3=40.00&status=MQTTPUBLISH"%string,
        true)].
Proof.
  cbv zeta.
  destruct (loop_connect 0 (Sim.boot (Sim.healthy 0 [Some Sim.rd_high])))
    as [[[[] s1] tr1]|] eqn:Ec; [|discriminate Ec].
  destruct (loop_acquire s1) as [[r s2] tr2] eqn:Ea.
  assert (Hr : r = Some Sim.rd_high).
  { vm_compute in Ec. injection Ec as <- <-. vm_compute in Ea. vm_compute. congruence. }
  subst r.
  destruct (payload_wire_format 0 _ _ _ _ _ _ Ec Ea)
    as (s' & tr & n & El & Hn & Hp & _).
  exists s', tr. split; [exact El|].
  rewrite Hp.
  assert (Hone : n = 1%nat).
  { assert (Hlen : List.length (publish_calls tr) = 1%nat).
    { pose proof El as El'. vm_compute in Ec. injection Ec as <- <-.
      vm_compute in Ea. injection Ea as <- <-.
      vm_compute in El'. injection El' as _ <-. reflexivity. }
    rewrite Hp, repeat_length in Hlen. exact Hlen. }
  rewrite Hone. vm_compute. reflexivity.
Defined.

(** C8 without WiFi: nothing is delivered, the alert is pending all the
    same and the evaluation 59.999 s later does not even try. *)
Lemma armed_even_if_dispatch_fails_witness :
  let s := Sim.boot (Sim.offline 0) in
  let r := Sim.evaluate_at Sim.rd_high s in
  F32.ge (co2 Sim.rd_high) (F32.of_int CO2_ALERT_THRESHOLD) = true /\
  emailAlertSent s = false /\
  In (WifiStatus 6) (snd r) /\
  delivered (snd r) = false /\
  emailAlertSent (snd (fst r)) = true /\
  lastEmailSent (snd (fst r)) = 0 /\
  fired (snd (Sim.evaluate_at Sim.rd_high
                (with_hw (snd (fst r)) (Sim.offline 59999)))) = false.
Proof.
  cbv zeta. unfold Sim.evaluate_at.
  assert (Hge : F32.ge (co2 Sim.rd_high) (F32.of_int CO2_ALERT_THRESHOLD) = true)
    by (vm_compute; reflexivity).
  destruct (checkCO2Alert (co2 Sim.rd_high) (temperature Sim.rd_high)
              (humidity Sim.rd_high) (Sim.boot (Sim.offline 0)))
    as [[[] s1] tr] eqn:E.
  cbn [fst snd].
  destruct (armed_even_if_dispatch_fails (co2 Sim.rd_high) (temperature Sim.rd_high)
              (humidity Sim.rd_high) (Sim.boot (Sim.offline 0))
              Hge (or_introl eq_refl) s1 tr E)
    as (_ & Ha & Hl & Hd & Hlater).
  assert (Hin : In (WifiStatus 6) tr).
  { vm_compute in E. injection E as _ <-. right; left; reflexivity. }
  split; [exact Hge|]. split; [reflexivity|]. split; [exact Hin|].
  split.
  { apply (proj2 Hd). left. exists 6. split; [discriminate|exact Hin]. }
  split; [exact Ha|]. split; [exact Hl|].
  rewrite (Hlater (co2 Sim.rd_high) (temperature Sim.rd_high)
             (humidity Sim.rd_high) (Sim.offline 59999) Hge);
    [reflexivity | vm_compute; reflexivity].
Defined.

(** 1200 ppm at 0 s, 850 ppm at 4 s, 1200 ppm at 8 s. *)
Lemma swing_run :
  alert_run (Sim.boot (Sim.healthy 0 [])) Sim.swing
            (Sim.pending 8000 (Sim.healthy 11000 [])).
Proof.
  unfold Sim.swing.
  apply run_step_at with (w := Sim.healthy 4000 []);
    [reflexivity | vm_compute; reflexivity |].
  apply run_step_at with (w := Sim.healthy 8000 []);
    [reflexivity | vm_compute; reflexivity |].
  apply run_step_at with (w := Sim.healthy 11000 []);
    [reflexivity | vm_compute; reflexivity |].
  vm_compute. apply run_done.
Defined.

(** C9 on that run: two notifications 8 s apart. *)
Lemma cooldown_lost_after_release_witness :
  alert_run (Sim.boot (Sim.healthy 0 [])) Sim.swing
            (Sim.pending 8000 (Sim.healthy 11000 [])) /\
  notified_at Sim.swing = [0; 8000] /\
  8000 - 0 < EMAIL_COOLDOWN /\
  ~ StronglySorted gap (notified_at Sim.swing).
Proof.
  assert (Hlow : F32.lt (co2 Sim.rd_low) (F32.of_int (CO2_ALERT_THRESHOLD - 100)) = true)
    by (vm_compute; reflexivity).
  assert (Hhot : hot (mkEval Sim.rd_high 8000 true))
    by (vm_compute; reflexivity).
  destruct (cooldown_lost_after_release _ _ _ _ _ swing_run eq_refl Hlow Hhot)
    as (Hn & Hclose).
  split; [exact swing_run|]. split; [exact Hn|].
  split; [reflexivity|].
  apply Hclose. reflexivity.
Defined.

(** C10 across the wrap of the clock: stamped at 4294966296, evaluated when
    [millis()] reads 59500, that is 60.5 s later. *)
Lemma cooldown_survives_overflow_witness :
  let s := Sim.pending (to_ulong Sim.before_wrap) (Sim.healthy Sim.after_wrap []) in
  lastEmailSent s = 4294966296 /\
  clock s = 59500 /\
  Sim.after_wrap - Sim.before_wrap = 60500 /\
  cooldown_elapsed (clock s) (lastEmailSent s) = true /\
  fired (snd (Sim.evaluate_at Sim.rd_high s)) = true.
Proof.
  cbv zeta.
  assert (Hge : F32.ge (co2 Sim.rd_high) (F32.of_int CO2_ALERT_THRESHOLD) = true)
    by (vm_compute; reflexivity).
  assert (Hrange : Sim.before_wrap <=
                   fst (hw_millis (hw (Sim.pending (to_ulong Sim.before_wrap)
                                         (Sim.healthy Sim.after_wrap []))))
                   < Sim.before_wrap + 2 ^ 32)
    by (vm_compute; split; [discriminate|reflexivity]).
  destruct (cooldown_survives_overflow (co2 Sim.rd_high) (temperature Sim.rd_high)
              (humidity Sim.rd_high)
              (Sim.pending (to_ulong Sim.before_wrap) (Sim.healthy Sim.after_wrap []))
              Sim.before_wrap eq_refl eq_refl Hrange Hge)
    as (Hc & Hf).
  split; [reflexivity|]. split; [reflexivity|]. split; [reflexivity|].
  split; [exact Hc|exact Hf].
Defined.

(** * Further properties of the sketch *)

(** ** Waiting *)

Lemma delay_total_app (t1 t2 : trace) :
  delay_total (t1 ++ t2) = delay_total t1 + delay_total t2.
Proof.
  unfold delay_total. rewrite pick_app.
  induction (pick _ t1) as [|x l IH]; cbn [fold_right app]; [reflexivity|].
  rewrite IH. ring.
Qed.

Lemma delay_total_failed_attempts (failure : event) (ms : Z) (k : nat) :
  delay_total [failure] = 0 ->
  delay_total (failed_attempts failure ms k) = ms * Z.of_nat k.
Proof.
  intros Hf. unfold failed_attempts.
  induction k as [|k IH]; [cbn; ring|].
  cbn [repeat List.concat].
  change ([failure; Out (Delay ms)] ++ List.concat (repeat [failure; Out (Delay ms)] k))
    with ([failure] ++ [Out (Delay ms)] ++ List.concat (repeat [failure; Out (Delay ms)] k)).
  rewrite !delay_total_app, Hf, IH.
  change (delay_total [Out (Delay ms)]) with (ms + 0).
  rewrite Nat2Z.inj_succ. ring.
Qed.

Section Waiting.

Context {W : Type} `{Hardware W} `{Platform}.

Implicit Types (s : state W).

(** The trace of [readSensor_for]: failed reads, each followed by 500 ms,
    then the read that succeeded if there is one. *)
Lemma readSensor_for_shape (n : nat) s r s' tr :
  readSensor_for n s = (r, s', tr) ->
  exists k,
    tr = failed_attempts (Scd30Read None) 500 k ++
         match r with Some rd => [Scd30Read (Some rd)] | None => [] end /\
    match r with Some _ => (k < n)%nat | None => k = n end.
Proof.
  revert s r s' tr. induction n as [|n IH]; intros s r s' tr E.
  - injection E as <- <- <-. now exists 0%nat.
  - cbn [readSensor_for] in E.
    unfold bind at 1 in E. unfold scd30_blockingReadMeasurementData, call in E.
    destruct (hw_scd30_read (hw s)) as [[rd|] w1].
    + injection E as <- <- <-. exists 0%nat. split; [reflexivity|lia].
    + unfold bind at 1 in E. unfold delay at 1, emit in E.
      cbn [hw with_hw] in E.
      match type of E with
      | context [readSensor_for n ?s1] =>
          destruct (readSensor_for n s1) as [[r2 s2] t2] eqn:E2
      end.
      injection E as <- <- <-.
      apply IH in E2. destruct E2 as (k & -> & Hk).
      exists (S k). split; [reflexivity|].
      destruct r2; lia.
Qed.

(** The same for [publish_for], with 1000 ms. *)
Lemma publish_for_shape (tp pl : string) (n : nat) s ok s' tr :
  publish_for tp pl n s = (ok, s', tr) ->
  exists k,
    tr = failed_attempts (MqttPublish tp pl true false) 1000 k ++
         (if ok then [MqttPublish tp pl true true] else []) /\
    if ok then (k < n)%nat else k = n.
Proof.
  revert s ok s' tr. induction n as [|n IH]; intros s ok s' tr E.
  - injection E as <- <- <-. now exists 0%nat.
  - cbn [publish_for] in E.
    unfold bind at 1 in E. unfold client_publish, call in E.
    destruct (hw_mqtt_publish tp pl true (hw s)) as [[|] w1].
    + injection E as <- <- <-. exists 0%nat. split; [reflexivity|lia].
    + unfold bind at 1 in E. unfold delay at 1, emit in E.
      cbn [hw with_hw] in E.
      match type of E with
      | context [publish_for tp pl n ?s1] =>
          destruct (publish_for tp pl n s1) as [[ok2 s2] t2] eqn:E2
      end.
      injection E as <- <- <-.
      apply IH in E2. destruct E2 as (k & -> & Hk).
      exists (S k). split; [reflexivity|].
      destruct ok2; lia.
Qed.

Lemma sensor_calls_failed_attempts (k : nat) :
  sensor_calls (failed_attempts (Scd30Read None) 500 k) = repeat false k.
Proof.
  unfold failed_attempts, sensor_calls.
  induction k as [|k IH]; [reflexivity|].
  cbn [repeat List.concat app pick]. now rewrite IH.
Qed.

Lemma publish_results_failed_attempts (tp pl : string) (k : nat) :
  publish_results (failed_attempts (MqttPublish tp pl true false) 1000 k) =
  repeat false k.
Proof.
  unfold failed_attempts, publish_results.
  induction k as [|k IH]; [reflexivity|].
  cbn [repeat List.concat app pick]. now rewrite IH.
Qed.

Lemma failures_of_repeat (k : nat) (l : list bool) :
  Forall (fun b => b = true) l ->
  List.length (filter negb (repeat false k ++ l)) = k.
Proof.
  intros Hl. rewrite filter_app, List.length_app.
  assert (Hnone : filter negb l = []).
  { induction Hl as [|b l -> _ IH]; [reflexivity|exact IH]. }
  rewrite Hnone. cbn [List.length]. rewrite Nat.add_0_r.
  induction k as [|k IH]; [reflexivity|]. cbn. now rewrite IH.
Qed.

(** X1 (what a retry costs).  [readSensorWithRetry] waits 500 ms after
    every read that failed, the last one included: the time it spends in
    [delay] is 500 ms times the number of failed reads, and when it gives up
    that is 500 ms times [maxRetries].  [publishWithRetry] does the same with
    1000 ms. *)
Theorem retry_waits_after_each_failure (maxRetries : Z) :
  (forall s r s' tr,
      readSensorWithRetry maxRetries s = (r, s', tr) ->
      delay_total tr =
        500 * Z.of_nat (List.length (filter negb (sensor_calls tr))) /\
      (r = None -> delay_total tr = 500 * Z.max 0 maxRetries))
  /\ (forall tp pl s ok s' tr,
        publishWithRetry tp pl maxRetries s = (ok, s', tr) ->
        delay_total tr =
          1000 * Z.of_nat (List.length (filter negb (publish_results tr))) /\
        (ok = false -> delay_total tr = 1000 * Z.max 0 maxRetries)).
Proof.
  split.
  - intros s r s' tr E. unfold readSensorWithRetry in E.
    apply readSensor_for_shape in E. destruct E as (k & -> & Hk).
    assert (Hd : delay_total
                   (failed_attempts (Scd30Read None) 500 k ++
                    match r with Some rd => [Scd30Read (Some rd)] | None => [] end)
                 = 500 * Z.of_nat k).
    { rewrite delay_total_app, delay_total_failed_attempts by reflexivity.
      destruct r; cbn; ring. }
    split.
    + rewrite Hd. unfold sensor_calls at 1. rewrite pick_app.
      fold (sensor_calls (failed_attempts (Scd30Read None) 500 k)).
      rewrite sensor_calls_failed_attempts.
      rewrite failures_of_repeat; [reflexivity|].
      destruct r; repeat constructor.
    + intros ->. rewrite Hd. subst k. lia.
  - intros tp pl s ok s' tr E. unfold publishWithRetry in E.
    apply publish_for_shape in E. destruct E as (k & -> & Hk).
    assert (Hd : delay_total
                   (failed_attempts (MqttPublish tp pl true false) 1000 k ++
                    (if ok then [MqttPublish tp pl true true] else []))
                 = 1000 * Z.of_nat k).
    { rewrite delay_total_app, delay_total_failed_attempts by reflexivity.
      destruct ok; cbn; ring. }
    split.
    + rewrite Hd. unfold publish_results at 1. rewrite pick_app.
      fold (publish_results (failed_attempts (MqttPublish tp pl true false) 1000 k)).
      rewrite publish_results_failed_attempts.
      rewrite failures_of_repeat; [reflexivity|].
      destruct ok; repeat constructor.
    + intros ->. rewrite Hd. subst k. lia.
Qed.

End Waiting.

(** ** Connecting to the broker *)

Section Broker.

Context {W : Type} `{Hardware W} `{Platform}.

Implicit Types (s : state W).

Lemma reconnect_attempt_shape s s' tr :
  reconnect_attempt s = (tt, s', tr) ->
  exists ok,
    connect_calls tr = [ok] /\ link_checks tr = [] /\
    delay_total tr = if ok then 1000 else 5000.
Proof.
  unfold reconnect_attempt, bind, client_connect, call, lcd_clear,
    lcd_setCursor, lcd_print, Serial_println, delay, emit.
  cbn [hw with_hw].
  match goal with
  | |- context [hw_mqtt_connect ?w] => destruct (hw_mqtt_connect w) as [[|] w1]
  end; intros [= <- <-]; eexists; repeat split.
Qed.

Lemma reconnectMQTT_shape (fuel : nat) s s' tr :
  reconnectMQTT fuel s = Some (tt, s', tr) ->
  exists n tr0,
    (n < fuel)%nat /\
    tr = tr0 ++ [MqttConnected true] /\
    link_checks tr = repeat false n ++ [true] /\
    List.length (connect_calls tr) = n /\
    1000 * Z.of_nat n <= delay_total tr <= 5000 * Z.of_nat n.
Proof.
  revert s s' tr. induction fuel as [|fuel IH]; intros s s' tr E;
    [discriminate|].
  cbn [reconnectMQTT] in E. unfold bindP at 1 in E.
  unfold lift at 1, client_connected, call in E.
  destruct (hw_mqtt_connected (hw s)) as [[|] w1]; cbn [negb] in E.
  - injection E as <- <-. exists 0%nat, [].
    repeat split; cbn; lia.
  - unfold bindP at 1 in E. unfold lift at 1 in E.
    destruct (reconnect_attempt (with_hw s w1)) as [[[] s2] t2] eqn:E2.
    apply reconnect_attempt_shape in E2. destruct E2 as (ok & Hc2 & Hl2 & Hd2).
    destruct (reconnectMQTT fuel s2) as [[[[] s3] t3]|] eqn:E3; [|discriminate].
    injection E as <- <-.
    apply IH in E3. destruct E3 as (n & tr0 & Hn & -> & Hl & Hc & Hd).
    exists (S n), (MqttConnected false :: t2 ++ tr0).
    split; [lia|].
    split; [cbn [app]; now rewrite <- app_assoc|].
    split.
    { unfold link_checks in *. cbn [app pick]. rewrite pick_app, Hl2, Hl.
      reflexivity. }
    split.
    { unfold connect_calls in *. cbn [app pick].
      rewrite pick_app, Hc2, List.length_app, Hc. reflexivity. }
    change (delay_total (MqttConnected false :: t2 ++ tr0 ++ [MqttConnected true]))
      with (delay_total (t2 ++ tr0 ++ [MqttConnected true])).
    rewrite delay_total_app, Hd2.
    rewrite Nat2Z.inj_succ. destruct ok; lia.
Qed.



End Broker.

(** ** More on the alert *)

Lemma float_1001_above_threshold (x : F32.float) :
  F32.ge x (F32.of_int 1001) = true ->
  F32.ge x (F32.of_int CO2_ALERT_THRESHOLD) = true.
Proof.
  rewrite float_1001, threshold_float. unfold F32.ge, SFleb.
  destruct x as [s|s| |s m e]; cbn [SFcompare];
    try congruence; try (destruct s; congruence).
  destruct s; [congruence|].
  rewrite (compare_cont_Eq 16400384 m), (compare_cont_Eq 16384000 m).
  destruct (-14 ?= e); try congruence.
  destruct (Pos.compare_spec 16400384 m) as [<-|Hm|Hm]; try discriminate.
  - intros _. reflexivity.
  - intros _.
    assert (Hlt : (16384000 ?= m)%positive = Lt)
      by (apply Pos.compare_lt_iff;
          apply Pos.lt_trans with 16400384%positive; [reflexivity|exact Hm]).
    now rewrite Hlt.
Qed.

Lemma gaps_count (b x : Z) (l : list Z) :
  StronglySorted gap (x :: l) ->
  Forall (fun y => y <= b) (x :: l) ->
  EMAIL_COOLDOWN * Z.of_nat (List.length l) <= b - x.
Proof.
  revert x. induction l as [|y l IH]; intros x Hss Hb.
  - inversion Hb; subst. cbn. lia.
  - inversion Hss as [|x0 l0 Hss' Hgap]; subst.
    inversion Hgap as [|y0 l0 Hxy _]; subst.
    inversion Hb as [|x0 l0 _ Hb']; subst.
    specialize (IH y Hss' Hb'). unfold gap in Hxy.
    cbn [List.length]. rewrite Nat2Z.inj_succ. unfold EMAIL_COOLDOWN in *. lia.
Qed.

Section MoreAlert.

Context {W : Type} `{Hardware W} `{Platform}.

Implicit Types (s : state W) (c t h : F32.float).

(** The notifications of a run at or above the threshold are a cooldown
    apart. *)
Lemma run_gaps s es s' :
  alert_run s es s' ->
  Forall hot es ->
  StronglySorted Z.le (map ev_time es) ->
  StronglySorted gap (notified_at es).
Proof.
  intros Hrun Hhot Hsorted.
  destruct es as [|e es]; [constructor|].
  set (T := ev_time e).
  set (Tp := T - (T - lastEmailSent s) mod ULONG_MOD).
  assert (HN : 0 < ULONG_MOD) by (rewrite ULONG_MOD_value; reflexivity).
  assert (HTp : Tp <= T).
  { pose proof (Z.mod_pos_bound (T - lastEmailSent s) ULONG_MOD HN).
    unfold Tp. lia. }
  apply (run_cooldown s (e :: es) s' Hrun Hhot Hsorted Tp).
  - intros _. unfold Tp.
    replace (lastEmailSent s - (T - (T - lastEmailSent s) mod ULONG_MOD))
      with ((lastEmailSent s - T) + (T - lastEmailSent s) mod ULONG_MOD)
      by ring.
    rewrite Zplus_mod_idemp_r.
    replace (lastEmailSent s - T + (T - lastEmailSent s)) with 0 by ring.
    reflexivity.
  - cbn [map] in Hsorted.
    inversion Hsorted as [|T0 ts Hss Hhead]; subst.
    constructor; [exact HTp|].
    rewrite Forall_map in Hhead. revert Hhead. apply Forall_impl.
    intros e' He'. fold T in He'. lia.
Qed.

(** X4 (no notification storm).  In a run of evaluations at or above the
    threshold, all made between the times [T0] and [T1] since boot, at most
    (T1 - T0) / 60000 + 1 notifications are fired, whatever the readings,
    the starting state and the outcome of the dispatches. *)
Theorem notifications_bounded_by_time s es s' (T0 T1 : Z) :
  alert_run s es s' ->
  Forall hot es ->
  StronglySorted Z.le (map ev_time es) ->
  T0 <= T1 ->
  Forall (fun e => T0 <= ev_time e <= T1) es ->
  Z.of_nat (List.length (notified_at es)) <= (T1 - T0) / EMAIL_COOLDOWN + 1.
Proof.
  intros Hrun Hhot Hsorted Hle Hin.
  pose proof (run_gaps _ _ _ Hrun Hhot Hsorted) as Hgaps.
  assert (Hb : Forall (fun y => T0 <= y <= T1) (notified_at es)).
  { unfold notified_at. apply Forall_map.
    apply Forall_forall. intros e He. apply filter_In in He.
    rewrite Forall_forall in Hin. now apply Hin. }
  destruct (notified_at es) as [|x l].
  - cbn. assert (0 <= (T1 - T0) / EMAIL_COOLDOWN)
      by (apply Z.div_pos; [lia|reflexivity]).
    lia.
  - assert (Hx : T0 <= x) by (inversion Hb; lia).
    assert (Hcount : EMAIL_COOLDOWN * Z.of_nat (List.length l) <= T1 - x).
    { apply gaps_count; [exact Hgaps|].
      revert Hb. apply Forall_impl. intros; lia. }
    cbn [List.length]. rewrite Nat2Z.inj_succ.
    assert (Z.of_nat (List.length l) <= (T1 - T0) / EMAIL_COOLDOWN).
    { apply Z.div_le_lower_bound; [reflexivity|]. lia. }
    lia.
Qed.

(** X5 (whole turns of the clock go unnoticed).  With an alert pending,
    stamped at time [T0], an evaluation at or above the threshold made
    [k * 2^32 + d] ms later with [d] below the cooldown fires nothing and
    only reads the clock: after [k] whole turns of the 32-bit clock (49.7
    days each) the elapsed time looks like [d]. *)
Theorem full_clock_turns_look_recent c t h s (T0 k d : Z) :
  emailAlertSent s = true ->
  lastEmailSent s = to_ulong T0 ->
  fst (hw_millis (hw s)) = T0 + k * 2 ^ 32 + d ->
  0 <= d < EMAIL_COOLDOWN ->
  F32.ge c (F32.of_int CO2_ALERT_THRESHOLD) = true ->
  cooldown_elapsed (clock s) (lastEmailSent s) = false /\
  checkCO2Alert c t h s =
    (tt, with_hw s (snd (hw_millis (hw s))), [Millis (clock s)]).
Proof.
  intros Ha Hl HT Hd Hge.
  assert (Hc : cooldown_elapsed (clock s) (lastEmailSent s) = false).
  { unfold cooldown_elapsed, clock. rewrite Hl.
    rewrite (ulong_elapsed _ T0 (to_ulong T0) (to_ulong_anchor T0)).
    rewrite HT.
    replace (T0 + k * 2 ^ 32 + d - T0) with (d + k * ULONG_MOD)
      by (unfold ULONG_MOD; ring).
    rewrite Z_mod_plus_full, Z.mod_small.
    - apply Z.leb_gt. lia.
    - rewrite ULONG_MOD_value. unfold EMAIL_COOLDOWN in Hd. lia. }
  split; [exact Hc|].
  apply checkCO2Alert_suppress; [exact Hge|].
  now rewrite Ha, Hc.
Qed.

(** X6 (the mail transport is guarded).  [sendEmailAlert] checks
    [WiFi.status()] exactly once and calls the mail transport only when it
    answered WL_CONNECTED; it hands over at most one mail, with the body made
    from the reading, and only after [smtp.connect] succeeded; it waits
    (2000 ms) only after a mail was accepted; and it leaves the alert
    globals alone. *)
Theorem mail_only_when_wifi_is_up c t h s s' tr :
  sendEmailAlert c t h s = (tt, s', tr) ->
  alert_of s' = alert_of s /\
  wifi_polls tr = [fst (hw_wifi_status (hw s))] /\
  (mail_calls tr <> [] -> fst (hw_wifi_status (hw s)) = WL_CONNECTED) /\
  (mails tr = [] \/ mails tr = [emailBody c t h]) /\
  (mails tr <> [] -> In (SmtpConnect true) tr) /\
  delay_total tr = (if delivered tr then 2000 else 0).
Proof.
  destruct (sendEmailAlert_cases c t h s) as (w' & tr' & E & Hc).
  rewrite E. intros [= <- <-]. cbv zeta in Hc.
  set (st := fst (hw_wifi_status (hw s))) in *.
  split; [reflexivity|].
  destruct Hc as [[Hst ->]|[[Hst ->]|[[Hst ->]|[Hst ->]]]]; cbn [app];
    repeat split;
    try reflexivity;
    try (intros _; exact Hst);
    try (now left); try (now right);
    try (intros Hm; exfalso; apply Hm; reflexivity);
    try (intros _; cbn [In]; auto 10).
Qed.

(** X7 (only the co2 value decides).  Temperature and humidity go into the
    mail and nowhere else: the alert globals after [checkCO2Alert] and
    whether a notification is fired do not depend on them. *)
Theorem alert_ignores_temperature_and_humidity c t h t' h' s :
  alert_of (snd (fst (checkCO2Alert c t h s))) =
    alert_of (snd (fst (checkCO2Alert c t' h' s))) /\
  fired (snd (checkCO2Alert c t h s)) = fired (snd (checkCO2Alert c t' h' s)).
Proof.
  destruct (F32.ge c (F32.of_int CO2_ALERT_THRESHOLD)) eqn:Hge.
  - destruct (negb (emailAlertSent s)
              || cooldown_elapsed (clock s) (lastEmailSent s)) eqn:Hcond.
    + destruct (checkCO2Alert_fire c t h s Hge Hcond) as (w1 & tr1 & Em1 & ->).
      destruct (checkCO2Alert_fire c t' h' s Hge Hcond) as (w2 & tr2 & Em2 & ->).
      cbn [fst snd alert_of emailAlertSent lastEmailSent].
      split; [reflexivity|].
      change (fired ([Millis (clock s)] ++ tr1 ++ flash) =
              fired ([Millis (clock s)] ++ tr2 ++ flash)).
      now rewrite !fired_app, (sendEmailAlert_fired _ _ _ _ _ _ Em1),
        (sendEmailAlert_fired _ _ _ _ _ _ Em2).
    + now rewrite !(checkCO2Alert_suppress _ _ _ s Hge Hcond).
  - destruct (F32.lt c (F32.of_int (CO2_ALERT_THRESHOLD - 100))) eqn:Hlt.
    + now rewrite !(checkCO2Alert_release _ _ _ s Hlt).
    + now rewrite !(checkCO2Alert_hold _ _ _ s Hge Hlt).
Qed.

End MoreAlert.

(** ** More on the main loop *)

Lemma fired_failed_attempts (failure : event) (ms : Z) (k : nat) :
  fired [failure] = false ->
  fired (failed_attempts failure ms k) = false.
Proof.
  intros Hf. unfold failed_attempts.
  induction k as [|k IH]; [reflexivity|].
  cbn [repeat List.concat].
  change ([failure; Out (Delay ms)] ++ List.concat (repeat [failure; Out (Delay ms)] k))
    with ([failure] ++ [Out (Delay ms)] ++ List.concat (repeat [failure; Out (Delay ms)] k)).
  now rewrite !fired_app, Hf, IH.
Qed.

Lemma same_alert_same_globals {W : Type} (s1 s2 : state W) :
  alert_of s1 = alert_of s2 -> s1 = with_hw s2 (hw s1).
Proof.
  destruct s1, s2. unfold alert_of. cbn. intros [= -> ->]. reflexivity.
Qed.

Section MoreLoop.

Context {W : Type} `{Hardware W} `{Platform}.

Implicit Types (s : state W).

(** [loop_report] in full: the evaluation, the notice, the failed publish
    calls with their waits, the call that succeeded or the failure report,
    the summary and the buzzer. *)
Lemma loop_report_parts (rd : reading) s s' tr :
  loop_report rd s = (tt, s', tr) ->
  exists sa tra (k : nat) (ok : bool),
    checkCO2Alert (co2 rd) (temperature rd) (humidity rd) s = (tt, sa, tra) /\
    s' = with_hw sa (hw s') /\
    (if ok then (k < 3)%nat else k = 3%nat) /\
    tr = tra ++ publish_notice (payload_of rd) ++
         (failed_attempts (MqttPublish topic (payload_of rd) true false) 1000 k ++
          (if ok then [MqttPublish topic (payload_of rd) true true] else [])) ++
         (if ok then [] else publish_failed_report) ++
         summary rd ++ buzz (int_of_float (co2 rd) >? 1000).
Proof.
  intros E.
  destruct (loop_report_spec rd s s' tr E)
    as (sa & tra & sq & ok & sp & trp & Ea & Ep & Hal & ->).
  unfold publishWithRetry in Ep. apply publish_for_shape in Ep.
  destruct Ep as (k & -> & Hk).
  exists sa, tra, k, ok.
  split; [exact Ea|]. split; [now apply same_alert_same_globals|].
  split; [exact Hk|reflexivity].
Qed.

Lemma checkCO2Alert_delay c t h s s' tr :
  checkCO2Alert c t h s = (tt, s', tr) ->
  delay_total tr = if fired tr then (if delivered tr then 3000 else 1000) else 0.
Proof.
  intros E.
  destruct (F32.ge c (F32.of_int CO2_ALERT_THRESHOLD)) eqn:Hge.
  - destruct (negb (emailAlertSent s)
              || cooldown_elapsed (clock s) (lastEmailSent s)) eqn:Hcond.
    + destruct (checkCO2Alert_fire c t h s Hge Hcond) as (w' & trm & Em & E').
      rewrite E' in E. injection E as <- <-.
      destruct (sendEmailAlert_cases c t h (with_hw s (snd (hw_millis (hw s)))))
        as (w2 & tr2 & E2 & Hc).
      rewrite E2 in Em. injection Em as <- <-.
      destruct Hc as [[_ ->]|[[_ ->]|[[_ ->]|[_ ->]]]]; reflexivity.
    + rewrite (checkCO2Alert_suppress c t h s Hge Hcond) in E.
      injection E as <- <-. reflexivity.
  - destruct (F32.lt c (F32.of_int (CO2_ALERT_THRESHOLD - 100))) eqn:Hlt.
    + rewrite (checkCO2Alert_release c t h s Hlt) in E.
      injection E as <- <-. reflexivity.
    + rewrite (checkCO2Alert_hold c t h s Hge Hlt) in E.
      injection E as <- <-. reflexivity.
Qed.

Lemma loop_acquire_shape s r s' tr :
  loop_acquire s = (r, s', tr) ->
  exists k,
    tr = MqttLoop :: failed_attempts (Scd30Read None) 500 k ++
         match r with Some rd => [Scd30Read (Some rd)] | None => [] end /\
    match r with Some _ => (k < 3)%nat | None => k = 3%nat end.
Proof.
  unfold loop_acquire, bind, client_loop, readSensorWithRetry.
  destruct (readSensor_for (Z.to_nat default_maxRetries)
              (with_hw s (hw_mqtt_loop (hw s)))) as [[r2 s2] t2] eqn:E2.
  intros [= <- <- <-].
  apply readSensor_for_shape in E2. destruct E2 as (k & -> & Hk).
  exists k. split; [reflexivity|exact Hk].
Qed.

(** X8 (how long a cycle takes).  Once the connection step is over, a
    cycle spends between 3 and 13 seconds in [delay]: exactly 3500 ms when
    the three sensor reads fail, and with a reading at least 3000 ms (the
    notice and the final pause) and at most 13000 ms (two failed reads, a
    delivered mail with its flash, three failed publish calls with their
    report, and the buzzer). *)
Theorem cycle_time_bounds s s' tr :
  loop_cycle s = (tt, s', tr) ->
  3000 <= delay_total tr <= 13000 /\
  (sensor_calls tr = [false; false; false] -> delay_total tr = 3500).
Proof.
  unfold loop_cycle. unfold bind at 1.
  destruct (loop_acquire s) as [[r s2] tr2] eqn:Ea.
  apply loop_acquire_shape in Ea. destruct Ea as (k & -> & Hk).
  destruct r as [rd|].
  - destruct (loop_report rd s2) as [[[] s3] tr3] eqn:Er.
    intros [= <- <-].
    apply loop_report_parts in Er.
    destruct Er as (sa & tra & kp & ok & Ea & _ & Hkp & ->).
    apply checkCO2Alert_delay in Ea.
    match goal with
    | |- context [MqttLoop :: ?l] => set (rest := l)
    end.
    change (delay_total (MqttLoop :: rest)) with (delay_total rest).
    change (sensor_calls (MqttLoop :: rest)) with (sensor_calls rest).
    subst rest. split.
    + rewrite !delay_total_app, !delay_total_failed_attempts, Ea by reflexivity.
      change (delay_total [Scd30Read (Some rd)]) with 0.
      change (delay_total (publish_notice (payload_of rd))) with 2000.
      change (delay_total (summary rd)) with 0.
      destruct (fired tra), (delivered tra), ok,
        (int_of_float (co2 rd) >? 1000);
        repeat match goal with
          | |- context [delay_total ?l] =>
              let v := eval cbv in (delay_total l) in
              change (delay_total l) with v
          end; lia.
    + unfold sensor_calls. rewrite !pick_app.
      fold (sensor_calls (failed_attempts (Scd30Read None) 500 k)).
      rewrite sensor_calls_failed_attempts. cbn [pick app].
      intros Hs. exfalso.
      assert (Hin : In true [false; false; false]).
      { rewrite <- Hs. apply in_or_app. left. apply in_or_app. right. now left. }
      cbn in Hin. intuition discriminate.
  - unfold loop_sensor_error, bind, lcd_clear, lcd_print, delay, emit.
    cbn [hw with_hw]. intros [= <- <-]. subst k.
    match goal with
    | |- context [MqttLoop :: ?l] => set (rest := l)
    end.
    change (delay_total (MqttLoop :: rest)) with (delay_total rest).
    subst rest.
    rewrite !delay_total_app, !delay_total_failed_attempts by reflexivity.
    cbn. split; [lia|reflexivity].
Qed.

End MoreLoop.

Section Cycles.

Context {W : Type} `{Hardware W} `{Platform}.

Implicit Types (s : state W).

Lemma alerting_no_publish_result (tr : trace) :
  Forall (fun e => alerting e = true) tr -> publish_results tr = [].
Proof.
  intros Hq. apply pick_none. revert Hq. apply Forall_impl.
  intros [[]| | | | | | | | |]; cbn; congruence.
Qed.


(** X10 (the buzzer never sounds without an alert pending).  In a cycle
    with a well-formed reading whose co2 value converts to an [int], if the
    buzzer pin is written HIGH then [emailAlertSent] is true when the cycle
    ends: the buzzer threshold (int(co2) > 1000) lies above the alert
    threshold (co2 >= 1000). *)
Theorem buzzer_only_with_alert_pending (rd : reading) s s' tr (z : Z) :
  loop_report rd s = (tt, s', tr) ->
  F32.valid (co2 rd) = true ->
  F32.to_int (co2 rd) = Some z ->
  In HIGH (buzzer_writes tr) ->
  emailAlertSent s' = true.
Proof.
  intros E Hv Hz Hhigh.
  destruct (loop_report_parts rd s s' tr E)
    as (sa & tra & k & ok & Ea & Hs' & _ & _).
  destruct (loop_report_buzzer rd s s' tr E) as (tr0 & -> & Hb0).
  unfold buzzer_writes in Hhigh, Hb0. rewrite pick_app, Hb0 in Hhigh.
  assert (Hon : (1000 <? z) = true).
  { unfold int_of_float in Hhigh. rewrite Hz, Z.gtb_ltb in Hhigh.
    destruct (1000 <? z); [reflexivity|].
    cbn in Hhigh. destruct Hhigh as [Hx|[]]. discriminate Hx. }
  rewrite (truncated_above_1000 _ _ Hv Hz) in Hon.
  apply float_1001_above_threshold in Hon.
  rewrite Hs'. cbn [with_hw emailAlertSent].
  destruct (hot_step _ _ _ _ _ _ Hon Ea)
    as [(_ & Ha & _) | (_ & _ & _ & Ha & _)]; exact Ha.
Qed.

Lemma loop_report_fired (rd : reading) s s' tr :
  loop_report rd s = (tt, s', tr) ->
  exists sa tra,
    checkCO2Alert (co2 rd) (temperature rd) (humidity rd) s = (tt, sa, tra) /\
    s' = with_hw sa (hw s') /\
    fired tr = fired tra.
Proof.
  intros E.
  destruct (loop_report_parts rd s s' tr E)
    as (sa & tra & k & ok & Ea & Hs' & _ & ->).
  exists sa, tra. split; [exact Ea|]. split; [exact Hs'|].
  rewrite !fired_app, fired_failed_attempts by reflexivity.
  destruct ok, (int_of_float (co2 rd) >? 1000), (fired tra); reflexivity.
Qed.

(** The evaluations of a sequence of cycles are a run of [checkCO2Alert]:
    nothing else in [loop] writes the alert globals. *)
Lemma loop_run_alert_run s es s' :
  loop_run s es s' ->
  exists w sf,
    alert_run (with_hw s w) es sf /\ alert_of sf = alert_of s'.
Proof.
  induction 1 as [s
                 | fuel s s1 tr1 s2 tr2 s3 tr3 es s' Ec Ea Er Hrun IH
                 | fuel s s1 tr1 rd s2 tr2 s3 tr3 es s' Ec Ea Er Hrun IH].
  - exists (hw s), s. split; [|reflexivity].
    destruct s. apply run_done.
  - destruct IH as (w & sf & Hal & Hsf).
    apply loop_connect_spec in Ec. destruct Ec as ((w1 & ->) & _).
    apply loop_acquire_spec in Ea. destruct Ea as ((w2 & ->) & _).
    unfold loop_sensor_error, bind, lcd_clear, lcd_print, delay, emit in Er.
    injection Er as <- _.
    exists w, sf. split; [exact Hal|exact Hsf].
  - destruct IH as (w & sf & Hal & Hsf).
    apply loop_connect_spec in Ec. destruct Ec as ((w1 & ->) & _).
    apply loop_acquire_spec in Ea. destruct Ea as ((w2 & ->) & _).
    apply loop_report_fired in Er.
    destruct Er as (sa & tra & Ea & Hs3 & ->).
    rewrite Hs3 in Hal.
    exists w2, sf. split; [|exact Hsf].
    exact (run_step (with_hw s w2) rd sa tra w es sf Ea Hal).
Qed.

(** X11 (the cooldown in the running sketch).  Over any sequence of
    [loop] cycles, from any state, in which every reading obtained is at or
    above the threshold and time does not go backwards, any two
    notifications are at least EMAIL_COOLDOWN = 60000 ms apart: nothing else
    in a cycle changes [lastEmailSent] or [emailAlertSent], the cycles whose
    sensor reads fail included. *)
Theorem cooldown_holds_across_cycles s es s' :
  loop_run s es s' ->
  Forall hot es ->
  StronglySorted Z.le (map ev_time es) ->
  StronglySorted gap (notified_at es)
  /\ exists w sf, alert_run (with_hw s w) es sf /\ alert_of sf = alert_of s'.
Proof.
  intros Hrun Hhot Hsorted.
  destruct (loop_run_alert_run _ _ _ Hrun) as (w & sf & Hal & Hsf).
  split; [exact (run_gaps _ _ _ Hal Hhot Hsorted)|].
  now exists w, sf.
Qed.

End Cycles.

(** ** Start-up *)

Lemma run_events_app (t1 t2 : list boot_event) :
  run_events (t1 ++ t2) = run_events t1 ++ run_events t2.
Proof.
  induction t1 as [|[e|c] t1 IH]; cbn [app run_events]; now rewrite ?IH.
Qed.

Lemma run_events_map (tr : trace) : run_events (map Run tr) = tr.
Proof. induction tr as [|e tr IH]; cbn; now rewrite ?IH. Qed.

Lemma boot_calls_app (t1 t2 : list boot_event) :
  boot_calls (t1 ++ t2) = boot_calls t1 ++ boot_calls t2.
Proof.
  induction t1 as [|[e|c] t1 IH]; cbn [app boot_calls]; now rewrite ?IH.
Qed.

Lemma boot_calls_map (tr : trace) : boot_calls (map Run tr) = [].
Proof. induction tr as [|e tr IH]; cbn; now rewrite ?IH. Qed.

Lemma delay_total_wifi_waits (sts : list Z) :
  delay_total (wifi_waits sts) = 500 * Z.of_nat (List.length sts).
Proof.
  unfold wifi_waits.
  induction sts as [|st sts IH]; [reflexivity|].
  cbn [flat_map].
  rewrite delay_total_app, IH. cbn [List.length]. rewrite Nat2Z.inj_succ.
  change (delay_total [WifiStatus st; Out (Delay 500); Out (LcdSetCursor 0 0);
                       Out (LcdPrint "Trying WIFI...")]) with 500.
  ring.
Qed.

Lemma wifi_polls_wifi_waits (sts : list Z) : wifi_polls (wifi_waits sts) = sts.
Proof.
  unfold wifi_waits, wifi_polls.
  induction sts as [|st sts IH]; [reflexivity|].
  cbn [flat_map]. rewrite pick_app, IH. reflexivity.
Qed.

Section StartupProperties.

Context {W : Type} `{Hardware W} `{BootHardware W}.

Implicit Types (s : state W).

(** The trace of the [while] of [connectWiFi]: a turn for each status that
    was not WL_CONNECTED, at most [n] of them, and the status check that
    ended the loop. *)
Lemma connectWiFi_wait_shape (n : nat) s s' tr :
  connectWiFi_wait n s = (tt, s', tr) ->
  exists sts last,
    tr = wifi_waits sts ++ [WifiStatus last] /\
    (List.length sts <= n)%nat /\
    Forall (fun st => st <> WL_CONNECTED) sts /\
    ((List.length sts < n)%nat -> last = WL_CONNECTED) /\
    alert_of s' = alert_of s.
Proof.
  revert s s' tr. induction n as [|n IH]; intros s s' tr;
    cbn [connectWiFi_wait]; unfold bind at 1; unfold WiFi_status, call;
    destruct (hw_wifi_status (hw s)) as [st w1];
    destruct (st =? WL_CONNECTED) eqn:Est; cbn [negb].
  - intros [= <- <-]. exists [], st.
    split; [reflexivity|]. split; [cbn; lia|]. split; [constructor|].
    split; [cbn; lia|reflexivity].
  - intros [= <- <-]. exists [], st.
    split; [reflexivity|]. split; [cbn; lia|]. split; [constructor|].
    split; [cbn; lia|reflexivity].
  - intros [= <- <-]. exists [], st. apply Z.eqb_eq in Est.
    split; [reflexivity|]. split; [cbn; lia|]. split; [constructor|].
    split; [intros _; exact Est|reflexivity].
  - unfold bind, delay, lcd_setCursor, lcd_print, emit. cbn [hw with_hw].
    match goal with
    | |- context [connectWiFi_wait n ?s1] =>
        destruct (connectWiFi_wait n s1) as [[[] s2] t2] eqn:E2
    end.
    intros [= <- <-].
    apply IH in E2. destruct E2 as (sts & last & -> & Hlen & Hne & Hlast & Hal).
    exists (st :: sts), last. apply Z.eqb_neq in Est.
    split; [reflexivity|].
    split; [cbn; lia|].
    split; [constructor; assumption|].
    split; [cbn [List.length]; intros Hlt; apply Hlast; lia|].
    exact Hal.
Qed.

(** [connectWiFi], event by event. *)
Lemma connectWiFi_shape s s' tr :
  connectWiFi s = (tt, s', tr) ->
  exists sts last final,
    tr = Boot WifiBegin ::
         map Run (wifi_waits sts ++
                  [WifiStatus last; Out LcdClear; WifiStatus final] ++
                  wifi_report (final =? WL_CONNECTED)) /\
    (List.length sts <= 20)%nat /\
    Forall (fun st => st <> WL_CONNECTED) sts /\
    ((List.length sts < 20)%nat -> last = WL_CONNECTED) /\
    (List.length (wifi_polls (run_events tr)) <= 22)%nat /\
    1500 <= delay_total (run_events tr) <= 12000 /\
    alert_of s' = alert_of s.
Proof.
  unfold connectWiFi, bindB, boot, run. cbn [hw with_hw].
  match goal with
  | |- context [connectWiFi_wait 20 ?s1] =>
      destruct (connectWiFi_wait 20 s1) as [[[] s2] t2] eqn:E2
  end.
  apply connectWiFi_wait_shape in E2.
  destruct E2 as (sts & last & -> & Hlen & Hne & Hlast & Hal).
  unfold connectWiFi_report, bind at 1, lcd_clear, emit.
  unfold bind at 1, WiFi_status, call. cbn [hw with_hw].
  match goal with
  | |- context [hw_wifi_status ?w] => destruct (hw_wifi_status w) as [final w3]
  end.
  assert (Hshape : forall (rest : trace) s3,
    (tt, s3,
     [Boot WifiBegin] ++
     map Run (wifi_waits sts ++ [WifiStatus last]) ++
     map Run ([Out LcdClear] ++ [WifiStatus final] ++ rest)) = (tt, s', tr) ->
    rest = wifi_report (final =? WL_CONNECTED) ->
    alert_of s3 = alert_of s2 ->
    exists sts0 last0 final0,
      tr = Boot WifiBegin ::
           map Run (wifi_waits sts0 ++
                    [WifiStatus last0; Out LcdClear; WifiStatus final0] ++
                    wifi_report (final0 =? WL_CONNECTED)) /\
      (List.length sts0 <= 20)%nat /\
      Forall (fun st => st <> WL_CONNECTED) sts0 /\
      ((List.length sts0 < 20)%nat -> last0 = WL_CONNECTED) /\
      (List.length (wifi_polls (run_events tr)) <= 22)%nat /\
      1500 <= delay_total (run_events tr) <= 12000 /\
      alert_of s' = alert_of s).
  { intros rest s3 E -> Hal3.
    assert (Htr : tr = Boot WifiBegin ::
                       map Run (wifi_waits sts ++
                                [WifiStatus last; Out LcdClear; WifiStatus final] ++
                                wifi_report (final =? WL_CONNECTED))).
    { injection E as _ <-. rewrite !map_app, <- !app_assoc. reflexivity. }
    injection E as <- _.
    exists sts, last, final.
    split; [exact Htr|].
    split; [exact Hlen|]. split; [exact Hne|]. split; [exact Hlast|].
    rewrite Htr. cbn [run_events]. rewrite run_events_map.
    split.
    { unfold wifi_polls. rewrite !pick_app.
      fold (wifi_polls (wifi_waits sts)). rewrite wifi_polls_wifi_waits.
      rewrite !List.length_app.
      destruct (final =? WL_CONNECTED); cbn; lia. }
    split.
    { rewrite !delay_total_app, delay_total_wifi_waits.
      destruct (final =? WL_CONNECTED);
        repeat match goal with
          | |- context [delay_total ?l] =>
              let v := eval cbv in (delay_total l) in
              change (delay_total l) with v
          end; lia. }
    rewrite Hal3. exact Hal. }
  destruct (final =? WL_CONNECTED) eqn:Efinal;
    unfold bind, lcd_print, delay, lcd_clear, Serial_println, emit;
    cbn [hw with_hw]; intros E.
  - refine (Hshape (wifi_report true) _ E _ _); reflexivity.
  - refine (Hshape (wifi_report false) _ E _ _); reflexivity.
Qed.

(** X12 (waiting for WiFi).  [connectWiFi] starts the station, then polls
    [WiFi.status()] at most 21 times, waiting 500 ms after each answer that
    is not WL_CONNECTED but the 21st; it stops early only on WL_CONNECTED.
    It then asks once more, and it is this last answer that decides between
    "WiFi Connected!" and "WiFi Failed!".  It returns in any case, after at
    most 12 seconds of [delay], and does not touch the alert globals. *)
Theorem connectWiFi_waits_at_most_20_times s s' tr :
  connectWiFi s = (tt, s', tr) ->
  exists sts last final,
    tr = Boot WifiBegin ::
         map Run (wifi_waits sts ++
                  [WifiStatus last; Out LcdClear; WifiStatus final] ++
                  wifi_report (final =? WL_CONNECTED)) /\
    (List.length sts <= 20)%nat /\
    Forall (fun st => st <> WL_CONNECTED) sts /\
    ((List.length sts < 20)%nat -> last = WL_CONNECTED) /\
    (List.length (wifi_polls (run_events tr)) <= 22)%nat /\
    1500 <= delay_total (run_events tr) <= 12000 /\
    alert_of s' = alert_of s.
Proof. apply connectWiFi_shape. Qed.

Lemma pick_wifi_waits {A : Type} (f : event -> option A) (sts : list Z) :
  (forall st, f (WifiStatus st) = None) ->
  (forall o, f (Out o) = None) ->
  pick f (wifi_waits sts) = [].
Proof.
  intros Hw Ho. apply pick_none. unfold wifi_waits.
  induction sts as [|st sts IH]; [constructor|].
  cbn [flat_map app]. repeat (constructor; [now rewrite ?Hw, ?Ho|]). exact IH.
Qed.

(** X13 (start-up).  [setup] makes its nine initialisation calls in the
    same order whether WiFi came up or not, and ends by showing "MQTT setup
    done" for two seconds.  It spends between 3.5 and 14 seconds in [delay].
    It never talks to the broker, never reads the sensor, never calls the
    mail transport and never writes to the buzzer pin, and it leaves the
    alert globals as they are. *)
Theorem setup_is_bounded_and_local s s' tr :
  setup s = (tt, s', tr) ->
  boot_calls tr =
    [SerialBegin 115200; PinMode buzzer OUTPUT; LcdBegin 16 2; WifiBegin;
     WireBegin; Scd30Begin SCD30_I2C_ADDR_61;
     MqttSetServer mqttServer mqttPort; SmtpDebug 0; SmtpCallback] /\
  (exists pre,
      tr = pre ++ map Run [Out (LcdSetCursor 0 0); Out (LcdPrint "MQTT setup done");
                           Out (Delay 2000); Out LcdClear]) /\
  3500 <= delay_total (run_events tr) <= 14000 /\
  link_checks (run_events tr) = [] /\
  connect_calls (run_events tr) = [] /\
  publish_calls (run_events tr) = [] /\
  sensor_calls (run_events tr) = [] /\
  mail_calls (run_events tr) = [] /\
  buzzer_writes (run_events tr) = [] /\
  alert_of s' = alert_of s.
Proof.
  unfold setup. unfold bindB at 1 2 3, boot. cbn [hw with_hw].
  unfold bindB at 1.
  match goal with
  | |- context [connectWiFi ?s1] =>
      destruct (connectWiFi s1) as [[[] s2] t2] eqn:Ew
  end.
  apply connectWiFi_shape in Ew.
  destruct Ew as (sts & last & final & -> & Hlen & _ & _ & _ & Hd & Hal).
  cbn [run_events] in Hd. rewrite run_events_map in Hd.
  unfold bindB, run, bind, lcd_setCursor, lcd_print, delay, lcd_clear, emit.
  cbn [hw with_hw]. intros E.
  set (wifi := wifi_waits sts ++
               [WifiStatus last; Out LcdClear; WifiStatus final] ++
               wifi_report (final =? WL_CONNECTED)) in *.
  set (closing := [Out (LcdSetCursor 0 0); Out (LcdPrint "MQTT setup done");
                   Out (Delay 2000); Out LcdClear]).
  assert (Htr : tr =
            ([Boot (SerialBegin 115200); Boot (PinMode buzzer OUTPUT);
              Boot (LcdBegin 16 2); Boot WifiBegin] ++ map Run wifi ++
             [Boot WireBegin; Boot (Scd30Begin SCD30_I2C_ADDR_61);
              Boot (MqttSetServer mqttServer mqttPort); Boot (SmtpDebug 0);
              Boot SmtpCallback]) ++ map Run closing).
  { injection E as _ <-. cbn [app]. rewrite <- !app_assoc. reflexivity. }
  assert (Hs' : alert_of s' = alert_of s2) by (injection E as <- _; reflexivity).
  clear E.
  assert (Hpick : forall (A : Type) (f : event -> option A),
             (forall st, f (WifiStatus st) = None) ->
             (forall o, f (Out o) = None) ->
             pick f wifi = []).
  { intros A f Hw Ho. unfold wifi. rewrite pick_app, pick_wifi_waits by assumption.
    apply pick_none.
    destruct (final =? WL_CONNECTED); repeat constructor; now rewrite ?Hw, ?Ho. }
  assert (Hrun : run_events tr = wifi ++ closing).
  { rewrite Htr. cbn [app run_events].
    rewrite !run_events_app, !run_events_map. cbn [run_events].
    now rewrite app_nil_r. }
  split.
  { rewrite Htr. cbn [app boot_calls].
    rewrite !boot_calls_app, !boot_calls_map. cbn [boot_calls app].
    now rewrite ?app_nil_r. }
  split; [eexists; exact Htr|].
  rewrite Hrun.
  split.
  { rewrite delay_total_app.
    change (delay_total closing) with 2000.
    lia. }
  unfold link_checks, connect_calls, publish_calls, sensor_calls, mail_calls.
  rewrite !pick_app, !Hpick by (intros; reflexivity).
  repeat (split; [reflexivity|]).
  split.
  - unfold buzzer_writes. rewrite pick_app. unfold wifi.
    rewrite !pick_app, pick_none.
    + destruct (final =? WL_CONNECTED); reflexivity.
    + unfold wifi_waits. clear. induction sts as [|st sts IH]; [constructor|].
      cbn [flat_map app]. repeat (constructor; [reflexivity|]). exact IH.
  - rewrite Hs'. exact Hal.
Qed.

End StartupProperties.

(** * The further properties on the scripted world *)

(** X1 on a sensor that fails three times: 1500 ms of waiting. *)
Lemma retry_waits_after_each_failure_witness :
  let s := Sim.boot (Sim.blind 0) in
  fst (fst (readSensorWithRetry 3 s)) = None /\
  delay_total (snd (readSensorWithRetry 3 s)) = 1500.
Proof.
  cbv zeta.
  destruct (readSensorWithRetry 3 (Sim.boot (Sim.blind 0))) as [[r s'] tr] eqn:E.
  assert (Hr : r = None) by (vm_compute in E; congruence).
  cbn [fst snd]. split; [exact Hr|].
  destruct (proj1 (retry_waits_after_each_failure 3) _ _ _ _ E) as (_ & Hfail).
  exact (Hfail Hr).
Defined.



(** X4 on the run at 0 s, 30 s and 90 s: two notifications in 90 s. *)
Lemma notifications_bounded_by_time_witness :
  Forall (fun e => 0 <= ev_time e <= 90000) Sim.steady /\
  List.length (notified_at Sim.steady) = 2%nat /\
  Z.of_nat (List.length (notified_at Sim.steady)) <= (90000 - 0) / EMAIL_COOLDOWN + 1.
Proof.
  assert (Hin : Forall (fun e => 0 <= ev_time e <= 90000) Sim.steady)
    by (repeat constructor; cbn; discriminate).
  split; [exact Hin|]. split; [reflexivity|].
  exact (notifications_bounded_by_time _ _ _ 0 90000
           steady_run steady_hot steady_sorted ltac:(discriminate) Hin).
Defined.

(** X5 one whole turn of the clock and 100 ms after a notification. *)
Lemma full_clock_turns_look_recent_witness :
  let s := Sim.pending (to_ulong 5000) (Sim.healthy (5000 + 1 * 2 ^ 32 + 100) []) in
  clock s = 5100 /\
  fired (snd (Sim.evaluate_at Sim.rd_high s)) = false.
Proof.
  cbv zeta. split; [reflexivity|].
  assert (Hge : F32.ge (co2 Sim.rd_high) (F32.of_int CO2_ALERT_THRESHOLD) = true)
    by (vm_compute; reflexivity).
  assert (HT : fst (hw_millis (hw (Sim.pending (to_ulong 5000)
                                     (Sim.healthy (5000 + 1 * 2 ^ 32 + 100) []))))
               = 5000 + 1 * 2 ^ 32 + 100) by reflexivity.
  assert (Hd : 0 <= 100 < EMAIL_COOLDOWN) by (split; [discriminate|reflexivity]).
  unfold Sim.evaluate_at.
  rewrite (proj2 (full_clock_turns_look_recent
                    (co2 Sim.rd_high) (temperature Sim.rd_high) (humidity Sim.rd_high)
                    (Sim.pending (to_ulong 5000)
                                 (Sim.healthy (5000 + 1 * 2 ^ 32 + 100) []))
                    5000 1 100 eq_refl eq_refl HT Hd Hge)).
  reflexivity.
Defined.

(** X6 with WiFi up and the mail server down: one status check, no mail. *)
Lemma mail_only_when_wifi_is_up_witness :
  let r := sendEmailAlert (co2 Sim.rd_high) (temperature Sim.rd_high)
             (humidity Sim.rd_high) (Sim.boot (Bench.no_smtp 0)) in
  wifi_polls (snd r) = [WL_CONNECTED] /\
  mail_calls (snd r) = [SmtpConnect false] /\
  delay_total (snd r) = 0.
Proof.
  cbv zeta.
  destruct (sendEmailAlert (co2 Sim.rd_high) (temperature Sim.rd_high)
              (humidity Sim.rd_high) (Sim.boot (Bench.no_smtp 0)))
    as [[[] s'] tr] eqn:E.
  destruct (mail_only_when_wifi_is_up _ _ _ _ _ _ E)
    as (_ & Hw & _ & _ & _ & Hd).
  cbn [snd]. split; [exact Hw|].
  vm_compute in E. injection E as _ <-. split; reflexivity.
Defined.

(** X8 on a cycle at 1200 ppm where everything works: 7 s. *)
Lemma cycle_time_bounds_witness :
  let r := loop_cycle (Sim.boot (Sim.healthy 0 [Some Sim.rd_high])) in
  delay_total (snd r) = 7000 /\ 3000 <= delay_total (snd r) <= 13000.
Proof.
  cbv zeta.
  destruct (loop_cycle (Sim.boot (Sim.healthy 0 [Some Sim.rd_high])))
    as [[[] s'] tr] eqn:E.
  destruct (cycle_time_bounds _ _ _ E) as (Hb & _).
  cbn [snd]. split; [|exact Hb].
  vm_compute in E. injection E as _ <-. reflexivity.
Defined.


(** X10 at 1200 ppm. *)
Lemma buzzer_only_with_alert_pending_witness :
  let r := loop_report Sim.rd_high (Sim.boot (Sim.offline 0)) in
  In HIGH (buzzer_writes (snd r)) /\
  delivered (snd r) = false /\
  emailAlertSent (snd (fst r)) = true.
Proof.
  cbv zeta.
  destruct (loop_report Sim.rd_high (Sim.boot (Sim.offline 0)))
    as [[[] s'] tr] eqn:E.
  cbn [fst snd].
  assert (Hhigh : In HIGH (buzzer_writes tr))
    by (pose proof E as E'; vm_compute in E'; injection E' as _ <-; now left).
  split; [exact Hhigh|]. split.
  - vm_compute in E. injection E as _ <-. reflexivity.
  - apply (buzzer_only_with_alert_pending Sim.rd_high _ _ _ 1200 E);
      [vm_compute; reflexivity | vm_compute; reflexivity | exact Hhigh].
Defined.

(** The cycles of [loop_run] are the calls of [loop] that return: the
    connection step, the acquisition, and the branch the reading selects. *)
Lemma loop_phases {W : Type} `{Hardware W} `{Platform}
      (fuel : nat) (s s3 : state W) (tr : trace) :
  loop fuel s = Some (tt, s3, tr) <->
  exists s1 tr1 r s2 tr2 tr3,
    loop_connect fuel s = Some (tt, s1, tr1) /\
    loop_acquire s1 = (r, s2, tr2) /\
    match r with
    | None => loop_sensor_error s2
    | Some rd => loop_report rd s2
    end = (tt, s3, tr3) /\
    tr = tr1 ++ tr2 ++ tr3.
Proof.
  unfold loop, bindP, lift, loop_cycle, bind. split.
  - destruct (loop_connect fuel s) as [[[[] s1] tr1]|]; [|discriminate].
    destruct (loop_acquire s1) as [[r s2] tr2] eqn:Ea.
    destruct (match r with
              | None => loop_sensor_error
              | Some rd => loop_report rd
              end s2) as [[[] s3'] tr3] eqn:Eb.
    intros [= <- <-].
    exists s1, tr1, r, s2, tr2, tr3.
    split; [reflexivity|]. split; [exact Ea|].
    split; [destruct r; exact Eb|reflexivity].
  - intros (s1 & tr1 & r & s2 & tr2 & tr3 & -> & -> & Eb & ->).
    destruct r; rewrite Eb; reflexivity.
Qed.

(** A cycle with a reading, given by what it computes. *)
Lemma cycle_read_at (fuel : nat) (s : state Sim.world) (rd : reading)
      (T : Z) (f : bool) es s' :
  (exists s1 tr1 s2 tr2,
      loop_connect fuel s = Some (tt, s1, tr1) /\
      loop_acquire s1 = (Some rd, s2, tr2) /\
      fst (hw_millis (hw s2)) = T /\
      fired (snd (loop_report rd s2)) = f /\
      loop_run (snd (fst (loop_report rd s2))) es s') ->
  loop_run s (mkEval rd T f :: es) s'.
Proof.
  intros (s1 & tr1 & s2 & tr2 & Ec & Ea & <- & <- & Hrun).
  destruct (loop_report rd s2) as [[[] s3] tr3] eqn:Er.
  exact (cycle_read fuel s s1 tr1 rd s2 tr2 s3 tr3 es s' Ec Ea Er Hrun).
Qed.

(** A cycle without a reading, given by what it computes. *)
Lemma cycle_blind_at (fuel : nat) (s : state Sim.world) es s' :
  (exists s1 tr1 s2 tr2,
      loop_connect fuel s = Some (tt, s1, tr1) /\
      loop_acquire s1 = (None, s2, tr2) /\
      loop_run (snd (fst (loop_sensor_error s2))) es s') ->
  loop_run s es s'.
Proof.
  intros (s1 & tr1 & s2 & tr2 & Ec & Ea & Hrun).
  destruct (loop_sensor_error s2) as [[[] s3] tr3] eqn:Er.
  exact (cycle_blind fuel s s1 tr1 s2 tr2 s3 tr3 es s' Ec Ea Er Hrun).
Qed.

(** Three cycles: 1200 ppm, a sensor that fails, 1200 ppm again 10.5 s
    after the first. *)
Lemma three_cycles :
  exists s',
    loop_run
      (Sim.boot (Sim.healthy 0 [Some Sim.rd_high; None; None; None; Some Sim.rd_high]))
      [mkEval Sim.rd_high 0 true; mkEval Sim.rd_high 10500 false] s'.
Proof.
  eexists.
  apply cycle_read_at with (fuel := 0%nat).
  do 4 eexists.
  split; [vm_compute; reflexivity|]. split; [vm_compute; reflexivity|].
  split; [reflexivity|]. split; [vm_compute; reflexivity|].
  apply cycle_blind_at with (fuel := 0%nat).
  do 4 eexists.
  split; [vm_compute; reflexivity|]. split; [vm_compute; reflexivity|].
  apply cycle_read_at with (fuel := 0%nat).
  do 4 eexists.
  split; [vm_compute; reflexivity|]. split; [vm_compute; reflexivity|].
  split; [vm_compute; reflexivity|]. split; [vm_compute; reflexivity|].
  apply cycles_done.
Defined.

(** X11 on these cycles: one notification, the second reading comes too
    early for another. *)
Lemma cooldown_holds_across_cycles_witness :
  let es := [mkEval Sim.rd_high 0 true; mkEval Sim.rd_high 10500 false] in
  Forall hot es /\
  StronglySorted Z.le (map ev_time es) /\
  notified_at es = [0] /\
  StronglySorted gap (notified_at es).
Proof.
  cbv zeta.
  assert (Hhot : Forall hot [mkEval Sim.rd_high 0 true; mkEval Sim.rd_high 10500 false])
    by (repeat constructor; vm_compute; reflexivity).
  assert (Hsorted : StronglySorted Z.le
            (map ev_time [mkEval Sim.rd_high 0 true; mkEval Sim.rd_high 10500 false]))
    by (repeat constructor; discriminate).
  split; [exact Hhot|]. split; [exact Hsorted|]. split; [reflexivity|].
  destruct three_cycles as (s' & Hrun).
  exact (proj1 (cooldown_holds_across_cycles _ _ _ Hrun Hhot Hsorted)).
Defined.

(** X12 without WiFi: twenty waits, 22 status checks, 12 s. *)
Lemma connectWiFi_waits_at_most_20_times_witness :
  let r := connectWiFi (Sim.boot (Sim.offline 0)) in
  List.length (wifi_polls (run_events (snd r))) = 22%nat /\
  delay_total (run_events (snd r)) = 12000 /\
  (List.length (wifi_polls (run_events (snd r))) <= 22)%nat /\
  1500 <= delay_total (run_events (snd r)) <= 12000.
Proof.
  cbv zeta.
  destruct (connectWiFi (Sim.boot (Sim.offline 0))) as [[[] s'] tr] eqn:E.
  destruct (connectWiFi_waits_at_most_20_times _ _ _ E)
    as (sts & last & final & _ & _ & _ & _ & Hp & Hd & _).
  cbn [snd].
  split; [vm_compute in E; injection E as _ <-; reflexivity|].
  split; [vm_compute in E; injection E as _ <-; reflexivity|].
  split; [exact Hp|exact Hd].
Defined.

(** X13 with WiFi up at once: 3.5 s. *)
Lemma setup_is_bounded_and_local_witness :
  let r := setup (Sim.boot (Sim.healthy 0 [])) in
  delay_total (run_events (snd r)) = 3500 /\
  3500 <= delay_total (run_events (snd r)) <= 14000 /\
  connect_calls (run_events (snd r)) = [] /\
  alert_of (snd (fst r)) = mkAlert false 0.
Proof.
  cbv zeta.
  destruct (setup (Sim.boot (Sim.healthy 0 []))) as [[[] s'] tr] eqn:E.
  destruct (setup_is_bounded_and_local _ _ _ E)
    as (_ & _ & Hd & _ & Hc & _ & _ & _ & _ & Hal).
  cbn [fst snd].
  split; [vm_compute in E; injection E as _ <-; reflexivity|].
  split; [exact Hd|]. split; [exact Hc|exact Hal].
Defined.
